(* Shallow embedding of the SentinelAI conflict-scoring pipeline
   (src/rules.py and analyze_text in src/app.py).

   Python floats are IEEE-754 binary64 numbers.  They are modelled exactly:
   a float value is a rational number (Q, kept in lowest terms) and every
   float operation of the source is the exact rational operation followed by
   rounding to the nearest binary64 value, ties to even.  All magnitudes
   reached by this code stay far below 2^1024, so overflow is not modelled.

   Python strings are sequences of code points, modelled as list Z.  The
   parts of Python's Unicode database the code relies on (str.isupper on one
   character, the regex class \w, str.lower, str.isspace) are gathered in the
   record UnicodeDB; the pipeline is defined for any such database, and
   ascii_db gives the ASCII part of Python's for concrete runs. *)

From Stdlib Require Import NArith ZArith QArith Qpower Qround Qabs List String Ascii Bool Lia.
Import ListNotations.

Open Scope Z_scope.

(* ------------------------------------------------------------------ *)
(** * Binary64 rounding *)

Module B64.

Definition pow2 (e : Z) : Q := Qpower (2 # 1) e.

Definition Qltb (x y : Q) : bool := negb (Qle_bool y x).

(** Round a rational to an integer, ties to even. *)
Definition rne (q : Q) : Z :=
  let n := Qnum q in
  let d := Zpos (Qden q) in
  let f := n / d in
  let r := n mod d in
  if 2 * r <? d then f
  else if d <? 2 * r then f + 1
  else if Z.even f then f else f + 1.

(** Exponent of the last mantissa bit for a positive rational [q]:
    [2^52 <= q / 2^e < 2^53] in the normal range, [-1074] for subnormals. *)
Definition fexp (q : Q) : Z :=
  let e0 := Z.log2 (Qnum q) - Z.log2 (Zpos (Qden q)) - 52 in
  let e1 := if Qltb (q * pow2 (- e0)) (pow2 52) then e0 - 1 else e0 in
  Z.max e1 (-1074).

Definition round_pos (q : Q) : Q :=
  let e := fexp q in
  Qred (inject_Z (rne (q * pow2 (- e))) * pow2 e).

(** Nearest binary64 value, ties to even. *)
Definition fl (q : Q) : Q :=
  if Qeq_bool q 0 then 0
  else if Qle_bool q 0 then Qopp (round_pos (Qopp q))
  else round_pos q.

(** A decimal literal [n / d] of the source, e.g. [0.3 = lit 3 10]. *)
Definition lit (n : Z) (d : positive) : Q := fl (n # d).

(** Float operations of the source. *)
Definition fadd (x y : Q) : Q := fl (x + y).
Definition fmul (x y : Q) : Q := fl (x * y).
Definition fmin (x y : Q) : Q := if Qltb y x then y else x.   (* min(x, y) *)
Definition of_int (n : Z) : Q := fl (inject_Z n).              (* float(n) *)

(** [round(x)] on a float: nearest integer, ties to even. *)
Definition py_round (x : Q) : Z := rne x.

(** [round(x, nd)] on a float: the exact binary value rounded to [nd]
    decimals (ties to even), then read back as the nearest float. *)
Definition py_round_nd (x : Q) (nd : nat) : Q :=
  let s := inject_Z (10 ^ Z.of_nat nd) in
  fl (inject_Z (rne (x * s)) / s).

End B64.

Import B64.

(* ------------------------------------------------------------------ *)
(** * Strings *)

(** A Python [str]: its code points. *)
Definition pystr := list Z.

(** An ASCII literal of the source as a code-point sequence. *)
Definition enc (s : string) : pystr :=
  map (fun a => Z.of_nat (nat_of_ascii a)) (list_ascii_of_string s).

Fixpoint str_eqb (s t : pystr) : bool :=
  match s, t with
  | [], [] => true
  | c :: s', d :: t' => (c =? d) && str_eqb s' t'
  | _, _ => false
  end.

(** [x in xs] for a list or set of strings. *)
Definition mem (x : pystr) (xs : list pystr) : bool := existsb (str_eqb x) xs.

(** The parts of Python's Unicode database the code uses. *)
Record UnicodeDB := {
  u_isupper : Z -> bool;          (* c.isupper() for a one-character c *)
  u_isword : Z -> bool;           (* membership in the regex class \w *)
  u_isspace : Z -> bool;          (* c.isspace(), the separators of split() *)
  u_lower : pystr -> pystr        (* str.lower() *)
}.

(** Maximal runs of characters satisfying [p]; [cur] is the current run,
    reversed.  With [p = \w] this is [re.findall(r"\b\w+\b", s)] (a match
    of \w+ between two word boundaries is exactly a maximal run of \w); with
    [p = not isspace] it is [s.split()]. *)
Fixpoint runs (p : Z -> bool) (cur : pystr) (s : pystr) : list pystr :=
  match s with
  | [] => match cur with [] => [] | _ => [rev cur] end
  | c :: s' =>
      if p c then runs p (c :: cur) s'
      else match cur with
           | [] => runs p [] s'
           | _ => rev cur :: runs p [] s'
           end
  end.

(** The ASCII part of Python's Unicode database (code points 0..127; other
    code points are treated as uncased non-word non-space characters). *)
Definition ascii_isupper (c : Z) : bool := (65 <=? c) && (c <=? 90).
Definition ascii_islower (c : Z) : bool := (97 <=? c) && (c <=? 122).
Definition ascii_isdigit (c : Z) : bool := (48 <=? c) && (c <=? 57).
Definition ascii_db : UnicodeDB := {|
  u_isupper := ascii_isupper;
  u_isword := fun c => ascii_isupper c || ascii_islower c || ascii_isdigit c || (c =? 95);
  u_isspace := fun c => ((9 <=? c) && (c <=? 13)) || ((28 <=? c) && (c <=? 32));
  u_lower := map (fun c => if ascii_isupper c then c + 32 else c)
|}.

(* ------------------------------------------------------------------ *)
(** * rules.py: vocabularies and pattern detectors *)

Definition SECOND_PERSON : list pystr := map enc ["you"; "your"; "you're"; "youve"]%string.
Definition ABSOLUTES : list pystr := map enc ["always"; "never"; "nothing"; "every"]%string.
Definition DIRECTIVES : list pystr := map enc ["stop"; "fix"; "explain"; "do"; "dont"; "don't"]%string.
Definition DISCOURSE_MARKERS : list pystr := map enc ["but"; "clearly"; "obviously"]%string.
Definition NEGATIONS : list pystr := map enc ["not"; "dont"; "don't"; "cant"; "can't"; "cannot"]%string.
Definition REJECTION_VERBS : list pystr := map enc ["like"; "tolerate"; "stand"; "respect"; "accept"]%string.
Definition NEGATIVE_EVALUATIONS : list pystr :=
  map enc ["unacceptable"; "nonsense"; "ridiculous";
           "inappropriate"; "wrong"; "bad"; "terrible"; "useless"]%string.
Definition PROFANITY : list pystr := map enc ["fuck"; "shit"; "damn"; "asshole"; "bitch"]%string.

Definition tokenize (db : UnicodeDB) (text : pystr) : list pystr :=
  runs (u_isword db) [] (u_lower db text).

Definition count_overlap (tokens vocab : list pystr) : nat :=
  List.length (filter (fun t => mem t vocab) tokens).

Definition has_second_person (tokens : list pystr) : bool :=
  Nat.ltb 0 (count_overlap tokens SECOND_PERSON).

Definition rejection_pattern (tokens : list pystr) : bool :=
  Nat.ltb 0 (count_overlap tokens REJECTION_VERBS)
  && Nat.ltb 0 (count_overlap tokens NEGATIONS).

Definition blame_pattern (tokens : list pystr) (sentiment_score : Q) : bool :=
  has_second_person tokens
  && (Nat.ltb 0 (count_overlap tokens ABSOLUTES) || Qltb (lit 6 10) sentiment_score).

Definition confrontational_pattern (tokens : list pystr) (sentiment_score : Q) : bool :=
  Nat.ltb 0 (count_overlap tokens DIRECTIVES) && Qltb (lit 55 100) sentiment_score.

Definition negative_tone_pattern (tokens : list pystr) : bool :=
  Nat.ltb 0 (count_overlap tokens NEGATIVE_EVALUATIONS)
  || (mem (enc "dont"%string) tokens && mem (enc "like"%string) tokens).

Definition norm_violation (tokens : list pystr) : bool :=
  Nat.ltb 0 (count_overlap tokens PROFANITY).

(* ------------------------------------------------------------------ *)
(** * rules.py: features, scoring, classification *)

(** The output of the external model, [model_output]. *)
Record ModelSignal := {
  sentiment : string;
  sentiment_score : Q;
  toxicity : Q;
  subjectivity : option Q          (* present in model.py's dicts only *)
}.

(** The feature dict of [extract_rule_features], its keys in order. *)
Record Features := {
  fs_negative_tone : bool;
  fs_norm_violation : bool;
  fs_negative_interaction : bool;
  fs_rejection : bool;
  fs_blame : bool;
  fs_confrontational : bool;
  fs_toxic : bool
}.

Definition features_items (f : Features) : list (string * bool) :=
  [("negative_tone", fs_negative_tone f);
   ("norm_violation", fs_norm_violation f);
   ("negative_interaction", fs_negative_interaction f);
   ("rejection", fs_rejection f);
   ("blame", fs_blame f);
   ("confrontational", fs_confrontational f);
   ("toxic", fs_toxic f)]%string.

(** [features.get(k)], falsy when the key is absent. *)
Definition features_get (f : Features) (k : string) : bool :=
  match find (fun kv => String.eqb (fst kv) k) (features_items f) with
  | Some (_, v) => v
  | None => false
  end.

Definition extract_rule_features (db : UnicodeDB) (text : pystr) (model_output : ModelSignal)
  : Features :=
  let tokens := tokenize db text in
  let sentiment := sentiment model_output in
  let sentiment_score := sentiment_score model_output in
  let toxicity := toxicity model_output in
  {| fs_negative_tone := negative_tone_pattern tokens;
     fs_norm_violation := norm_violation tokens;
     fs_negative_interaction := String.eqb sentiment "negative"%string && has_second_person tokens;
     fs_rejection := rejection_pattern tokens;
     fs_blame := blame_pattern tokens sentiment_score;
     fs_confrontational := confrontational_pattern tokens sentiment_score;
     fs_toxic := Qltb (lit 4 10) toxicity |}.

Definition weights : list (string * Q) :=
  [("negative_tone", lit 3 10);
   ("norm_violation", lit 6 10);
   ("negative_interaction", lit 2 10);
   ("rejection", lit 35 100);
   ("blame", lit 3 10);
   ("confrontational", lit 25 100);
   ("toxic", lit 5 10)]%string.

Definition calculate_conflict_score (features : Features) : Q :=
  let score :=
    fold_left (fun score kw => if features_get features (fst kw) then fadd score (snd kw) else score)
              weights 0%Q in
  (* Synergy bonuses *)
  let score := if fs_negative_tone features && fs_rejection features
               then fadd score (lit 15 100) else score in
  let score := if fs_blame features && fs_confrontational features
               then fadd score (lit 15 100) else score in
  fmin score (lit 1 1).

(** The risk bins of [apply_rules]. *)
Definition classify (score : Q) : string * string :=
  if Qltb score (lit 3 10) then ("LOW", "No action needed")%string
  else if Qltb score (lit 6 10) then ("MEDIUM", "Suggest cooling-off or rephrasing")%string
  else ("HIGH", "Intervene or alert moderator")%string.

Record RulesOutput := {
  ro_conflict_score : Q;
  ro_risk_level : string;
  ro_recommendation : string;
  ro_triggered_rules : list string
}.

Definition triggered (f : Features) : list string :=
  map fst (filter snd (features_items f)).

Definition apply_rules (db : UnicodeDB) (text : pystr) (model_output : ModelSignal) : RulesOutput :=
  let features := extract_rule_features db text model_output in
  let score := calculate_conflict_score features in
  let '(risk, recommendation) := classify score in
  {| ro_conflict_score := py_round_nd score 3;
     ro_risk_level := risk;
     ro_recommendation := recommendation;
     ro_triggered_rules := triggered features |}.

(* ------------------------------------------------------------------ *)
(** * app.py: analyze_text *)

(** Python computations that may raise: [inl msg] is an exception whose
    [str()] is [msg]. *)
Definition PyM (A : Type) : Type := (string + A)%type.
Definition ret {A} (a : A) : PyM A := inr a.
Definition bind {A B} (m : PyM A) (k : A -> PyM B) : PyM B :=
  match m with inl e => inl e | inr a => k a end.
Notation "x <- m ;; k" := (bind m (fun x => k)) (at level 61, m at next level, right associativity).

(** [try: body except Exception as exc: handler(str(exc))]. *)
Definition try_except {A} (body : PyM A) (handler : string -> PyM A) : PyM A :=
  match body with inl e => handler e | inr a => inr a end.

Record AnalysisResult := {
  conflict_score : Z;
  severity : string;
  flags : list string;
  suggestion : string;
  word_count : Z;
  triggered_rules : list string;
  model : ModelSignal;
  model_error : option string
}.

Definition default_signal : ModelSignal := {|
  sentiment := "neutral"; sentiment_score := 0; toxicity := 0; subjectivity := None |}.

(** [severity_map.get(risk_level, "low")]. *)
Definition severity_map : list (string * string) :=
  [("LOW", "low"); ("MEDIUM", "medium"); ("HIGH", "high")]%string.

Definition severity_get (risk_level : string) : string :=
  match find (fun kv => String.eqb (fst kv) risk_level) severity_map with
  | Some (_, v) => v
  | None => "low"%string
  end.

(** [str.replace('_', ' ')] and [str.title()] on the (ASCII) rule keys. *)
Definition is_ascii_upper (a : ascii) : bool := Nat.leb 65 (nat_of_ascii a) && Nat.leb (nat_of_ascii a) 90.
Definition is_ascii_lower (a : ascii) : bool := Nat.leb 97 (nat_of_ascii a) && Nat.leb (nat_of_ascii a) 122.
Definition to_upper (a : ascii) : ascii :=
  if is_ascii_lower a then ascii_of_nat (nat_of_ascii a - 32) else a.
Definition to_lower (a : ascii) : ascii :=
  if is_ascii_upper a then ascii_of_nat (nat_of_ascii a + 32) else a.

Fixpoint replace_underscore (s : string) : string :=
  match s with
  | EmptyString => EmptyString
  | String a s' => String (if Ascii.eqb a "_"%char then " "%char else a) (replace_underscore s')
  end.

(** [title]: a cased character is upper-cased after an uncased one and
    lower-cased after a cased one. *)
Fixpoint title_from (prev_cased : bool) (s : string) : string :=
  match s with
  | EmptyString => EmptyString
  | String a s' =>
      let cased := is_ascii_upper a || is_ascii_lower a in
      String (if cased then (if prev_cased then to_lower a else to_upper a) else a)
             (title_from cased s')
  end.

Definition title (s : string) : string := title_from false s.

Definition rule_flag (r : string) : string :=
  ("Rule triggered: " ++ title (replace_underscore r))%string.

Definition caps_flag : string := "⚠️ Excessive caps detected (aggressive tone)".
Definition exclamation_flag : string := "⚠️ Multiple exclamation marks (strong emotion)".
Definition no_negative_flag : string := "✅ No negative indicators".

Definition count_if (p : Z -> bool) (s : pystr) : Z := Z.of_nat (List.length (filter p s)).

(** [text.count("!")] *)
Definition count_bang (text : pystr) : Z := count_if (Z.eqb 33) text.

(** [bool(text) and caps_count > len(text) * 0.3]: the int is compared
    exactly with the float product. *)
Definition caps_test (db : UnicodeDB) (text : pystr) : bool :=
  let caps_count := count_if (u_isupper db) text in
  match text with
  | [] => false
  | _ => Qltb (fmul (of_int (Z.of_nat (List.length text))) (lit 3 10)) (inject_Z caps_count)
  end.

(** Everything after the model call, from [model_output] and [model_error]. *)
Definition analysis_of (db : UnicodeDB) (text : pystr) (model_output : ModelSignal)
    (model_error : option string) : AnalysisResult :=
  let rules_output := apply_rules db text model_output in
  let risk_level := ro_risk_level rules_output in
  let severity := severity_get risk_level in
  let conflict_score := py_round (fmul (ro_conflict_score rules_output) (lit 100 1)) in
  let flags := map rule_flag (ro_triggered_rules rules_output) in
  (* Count caps (SHOUTING) *)
  let '(conflict_score, flags) :=
    if caps_test db text
    then (Z.min 100 (conflict_score + 10), flags ++ [caps_flag])
    else (conflict_score, flags) in
  (* Count exclamation marks *)
  let exclamation_count := count_bang text in
  let '(conflict_score, flags) :=
    if 3 <=? exclamation_count
    then (Z.min 100 (conflict_score + 5), flags ++ [exclamation_flag])
    else (conflict_score, flags) in
  let suggestion := ro_recommendation rules_output in
  {| conflict_score := conflict_score;
     severity := severity;
     flags := match flags with [] => [no_negative_flag] | _ => flags end;
     suggestion := suggestion;
     word_count := Z.of_nat (List.length (runs (fun c => negb (u_isspace db c)) [] text));
     triggered_rules := ro_triggered_rules rules_output;
     model := model_output;
     model_error := model_error |}.

(** [analyze_text], the model call [model_analyze] being a parameter. *)
Definition analyze_text (db : UnicodeDB) (model_analyze : pystr -> PyM ModelSignal)
    (text : pystr) : PyM AnalysisResult :=
  mo <- try_except (mo <- model_analyze text ;; ret (mo, None))
                   (fun exc => ret (default_signal, Some exc)) ;;
  ret (analysis_of db text (fst mo) (snd mo)).

(* ------------------------------------------------------------------ *)
(** * Reading of the spec used for comparison *)

(** The score as the spec's words state it (section 4.3): the exact decimal
    weights of the true features, plus each synergy bonus, clamped to [0,1]. *)
Definition spec_score (f : Features) : Q :=
  let b (x : bool) (w : Q) := if x then w else 0%Q in
  let sum :=
    (b (fs_negative_tone f) (3 # 10) + b (fs_norm_violation f) (6 # 10)
     + b (fs_negative_interaction f) (2 # 10) + b (fs_rejection f) (35 # 100)
     + b (fs_blame f) (3 # 10) + b (fs_confrontational f) (25 # 100)
     + b (fs_toxic f) (5 # 10)
     + b (fs_negative_tone f && fs_rejection f) (15 # 100)
     + b (fs_blame f && fs_confrontational f) (15 # 100))%Q in
  if Qle_bool sum 1 then (if Qle_bool 0 sum then sum else 0%Q) else 1%Q.

(** A "don't like" bigram in the sense of adjacent tokens. *)
Fixpoint adjacent_pair (a b : pystr) (tokens : list pystr) : bool :=
  match tokens with
  | x :: ((y :: _) as rest) => (str_eqb x a && str_eqb y b) || adjacent_pair a b rest
  | _ => false
  end.

(** [features[k] = v] on the feature dict. *)
Definition features_set (f : Features) (k : string) (v : bool) : Features :=
  {| fs_negative_tone := if String.eqb k "negative_tone" then v else fs_negative_tone f;
     fs_norm_violation := if String.eqb k "norm_violation" then v else fs_norm_violation f;
     fs_negative_interaction :=
       if String.eqb k "negative_interaction" then v else fs_negative_interaction f;
     fs_rejection := if String.eqb k "rejection" then v else fs_rejection f;
     fs_blame := if String.eqb k "blame" then v else fs_blame f;
     fs_confrontational := if String.eqb k "confrontational" then v else fs_confrontational f;
     fs_toxic := if String.eqb k "toxic" then v else fs_toxic f |}%string.

(* ------------------------------------------------------------------ *)
(** * Auxiliary definitions *)

(** The integer score of [analyze_text] before the heuristics. *)
Definition rule_int_score (f : Features) : Z :=
  py_round (fmul (py_round_nd (calculate_conflict_score f) 3) (lit 100 1)).

(** The heuristic flags of [analyze_text], in order. *)
Definition heuristic_flags (db : UnicodeDB) (text : pystr) : list string :=
  (if caps_test db text then [caps_flag] else []) ++
  (if 3 <=? count_bang text then [exclamation_flag] else []).

(** The integer score after the heuristics, from the score before them. *)
Definition heuristic_score (db : UnicodeDB) (text : pystr) (base : Z) : Z :=
  let s := if caps_test db text then Z.min 100 (base + 10) else base in
  if 3 <=? count_bang text then Z.min 100 (s + 5) else s.

(** Enumeration of all feature sets, for exhaustive checks. *)
Definition all_features : list Features :=
  flat_map (fun a => flat_map (fun b => flat_map (fun c => flat_map (fun d =>
  flat_map (fun e => flat_map (fun g => map (fun h =>
    {| fs_negative_tone := a; fs_norm_violation := b; fs_negative_interaction := c;
       fs_rejection := d; fs_blame := e; fs_confrontational := g; fs_toxic := h |})
  [false; true]) [false; true]) [false; true]) [false; true]) [false; true]) [false; true])
  [false; true].

Definition features_index (f : Features) : nat :=
  let b (x : bool) (n : nat) := if x then n else 0%nat in
  (b (fs_negative_tone f) 64 + b (fs_norm_violation f) 32 + b (fs_negative_interaction f) 16
   + b (fs_rejection f) 8 + b (fs_blame f) 4 + b (fs_confrontational f) 2
   + b (fs_toxic f) 1)%nat.

Definition Qeqb_syn (x y : Q) : bool := (Qnum x =? Qnum y) && Pos.eqb (Qden x) (Qden y).

(** Pointwise order on feature sets. *)
Definition features_leb (f g : Features) : bool :=
  implb (fs_negative_tone f) (fs_negative_tone g) &&
  implb (fs_norm_violation f) (fs_norm_violation g) &&
  implb (fs_negative_interaction f) (fs_negative_interaction g) &&
  implb (fs_rejection f) (fs_rejection g) &&
  implb (fs_blame f) (fs_blame g) &&
  implb (fs_confrontational f) (fs_confrontational g) &&
  implb (fs_toxic f) (fs_toxic g).

(** All feature sets with their scores, each score computed once. *)
Definition score_table : list (Features * Q) :=
  map (fun f => (f, calculate_conflict_score f)) all_features.

(** Blame and confrontational alone. *)
Definition blame_confrontational : Features := {|
  fs_negative_tone := false; fs_norm_violation := false; fs_negative_interaction := false;
  fs_rejection := false; fs_blame := true; fs_confrontational := true; fs_toxic := false |}.

(** [k] copies of the code point [x]. *)
Definition rep (x : Z) (k : N) : pystr := N.iter k (cons x) [].

(** No feature fires. *)
Definition no_features : Features := {|
  fs_negative_tone := false; fs_norm_violation := false; fs_negative_interaction := false;
  fs_rejection := false; fs_blame := false; fs_confrontational := false; fs_toxic := false |}.

(** 2251799813685250 capitals followed by 5254199565265583 spaces. *)
Definition caps_spaces_text : pystr := rep 65 2251799813685250 ++ rep 32 5254199565265583.

Definition neutral_model (_ : pystr) : PyM ModelSignal := inr default_signal.

(* ------------------------------------------------------------------ *)
(** * model.py *)

(** [needle in haystack] on two strings: a substring test. *)
Fixpoint starts_with (s prefix : pystr) : bool :=
  match prefix, s with
  | [], _ => true
  | p :: prefix', c :: s' => (p =? c) && starts_with s' prefix'
  | _ :: _, [] => false
  end.

Fixpoint contains (haystack needle : pystr) : bool :=
  starts_with haystack needle ||
  match haystack with [] => false | _ :: h' => contains h' needle end.

Definition neg_words : list pystr :=
  map enc ["hate"; "stupid"; "idiot"; "useless"; "worst";
           "fault"; "blame"; "never"; "always"; "stop";
           "dont"; "can't"; "cant"; "tolerate"; "like"]%string.

Definition tox_words : list pystr := map enc ["kill"; "die"; "attack"; "terror"]%string.

(** [sum(1 for w in words if w in text_lower)] over a set of words (the
    iteration order of the set does not change the count). *)
Definition count_in (words : list pystr) (text_lower : pystr) : Z :=
  Z.of_nat (List.length (filter (contains text_lower) words)).

(** [_heuristic_analyze]; [text] is a [str], so [(text or "")] is [text]. *)
Definition heuristic_analyze (db : UnicodeDB) (text : pystr) : ModelSignal :=
  let text_lower := u_lower db text in
  let neg_count := count_in neg_words text_lower in
  let tox_count := count_in tox_words text_lower in
  let sentiment := if 0 <? neg_count then "negative"%string else "neutral"%string in
  let sentiment_score :=
    fmin (lit 9 10) (fadd (lit 4 10) (fmul (of_int neg_count) (lit 25 100))) in
  {| sentiment := sentiment;
     sentiment_score := py_round_nd sentiment_score 3;
     toxicity := py_round_nd (fmin (lit 1 1) (fmul (of_int tox_count) (lit 3 10))) 3;
     subjectivity := Some (py_round_nd (fmin (lit 1 1) (fadd sentiment_score (lit 2 10))) 3) |}.

(** [str.strip()]: leading and trailing [isspace] characters removed. *)
Fixpoint lstrip (p : Z -> bool) (s : pystr) : pystr :=
  match s with
  | c :: s' => if p c then lstrip p s' else s
  | [] => []
  end.

Definition py_strip (db : UnicodeDB) (s : pystr) : pystr :=
  rev (lstrip (u_isspace db) (rev (lstrip (u_isspace db) s))).

Definition is_empty {A} (l : list A) : bool := match l with [] => true | _ => false end.

(** One result dict of a transformers pipeline: its "label" and "score"
    entries, each possibly absent. *)
Record Prediction := {
  pred_label : option string;
  pred_score : option Q
}.

(** The module-level state of model.py: whether the pipelines loaded, the
    two pipelines (which may raise), and [str.lower] on labels. *)
Record ModelEnv := {
  MODEL_AVAILABLE : bool;
  sentiment_model : pystr -> PyM (list Prediction);
  toxicity_model : pystr -> PyM (list Prediction);
  label_lower : string -> string
}.

Definition SENTIMENT_MAP : list (string * string) :=
  [("label_0", "negative"); ("label_1", "neutral"); ("label_2", "positive")]%string.

(** [SENTIMENT_MAP.get(raw_label, raw_label)] *)
Definition sentiment_map_get (raw_label : string) : string :=
  match find (fun kv => String.eqb (fst kv) raw_label) SENTIMENT_MAP with
  | Some (_, v) => v
  | None => raw_label
  end.

(** [xs[0]] *)
Definition index0 {A} (xs : list A) : PyM A :=
  match xs with [] => inl "list index out of range"%string | x :: _ => inr x end.

(** The body of the [try] in [analyze_message]. *)
Definition transformers_analyze (env : ModelEnv) (text : pystr) : PyM ModelSignal :=
  sents <- sentiment_model env text ;;
  sent <- index0 sents ;;
  toxs <- toxicity_model env text ;;
  tox <- index0 toxs ;;
  let raw_label := label_lower env (match pred_label sent with
                                    | Some l => l | None => "neutral"%string end) in
  let sentiment := sentiment_map_get raw_label in
  let sentiment_score := match pred_score sent with Some s => s | None => 0%Q end in
  let toxicity :=
    if String.eqb (label_lower env (match pred_label tox with
                                    | Some l => l | None => ""%string end)) "toxic"
    then match pred_score tox with Some s => s | None => 0%Q end
    else 0%Q in
  let subjectivity := fmin (lit 1 1) (fadd sentiment_score toxicity) in
  ret {| sentiment := sentiment;
         sentiment_score := py_round_nd sentiment_score 3;
         toxicity := py_round_nd toxicity 3;
         subjectivity := Some (py_round_nd subjectivity 3) |}.

Definition zero_signal : ModelSignal := {|
  sentiment := "neutral"; sentiment_score := 0; toxicity := 0; subjectivity := Some 0%Q |}.

Definition analyze_message (db : UnicodeDB) (env : ModelEnv) (text : pystr) : ModelSignal :=
  if is_empty text || is_empty (py_strip db text) then zero_signal
  else if MODEL_AVAILABLE env then
    match try_except (transformers_analyze env text)
                     (fun _ => ret (heuristic_analyze db text)) with
    | inr r => r
    | inl _ => heuristic_analyze db text      (* the handler does not raise *)
    end
  else heuristic_analyze db text.

(* ------------------------------------------------------------------ *)
(** * app.py: the Streamlit page *)

(** [analyze_text] as app.py imports it, over model.py's [analyze_message]. *)
Definition app_analyze_text (db : UnicodeDB) (env : ModelEnv) : pystr -> PyM AnalysisResult :=
  analyze_text db (fun text => ret (analyze_message db env text)).

(** A chat message [(sender, text, timestamp, severity)]. *)
Record Message := {
  m_sender : string;
  m_text : pystr;
  m_timestamp : string;
  m_severity : string
}.

Definition msg (sender text timestamp severity : string) : Message :=
  {| m_sender := sender; m_text := enc text; m_timestamp := timestamp;
     m_severity := severity |}.

Definition DEMO_MESSAGES : list (string * list Message) := [
  ("Alice", [
    msg "Alice" "This project is going nowhere!" "10:23" "high";
    msg "Bob" "I disagree. We're making progress." "10:24" "medium";
    msg "Alice" "Your idea is completely useless." "10:25" "high";
    msg "Manager" "Let's discuss this constructively." "10:26" "medium"]);
  ("Bob", [
    msg "Bob" "You never listen to my ideas!" "14:05" "high";
    msg "Manager" "Let's take a step back and discuss." "14:06" "low";
    msg "Bob" "I appreciate your feedback on this." "14:07" "low";
    msg "Alice" "Good point, let's work together." "14:08" "low"]);
  ("Manager", [
    msg "Manager" "Both of you need to communicate better." "09:15" "medium";
    msg "Alice" "Understood. I'll make more effort." "09:16" "low";
    msg "Bob" "Thanks for the guidance." "09:17" "low";
    msg "Manager" "Great! Let's continue working as a team." "09:18" "low"])]%string.

(** A dict with string keys, in insertion order. *)
Definition dict_get {A} (d : list (string * A)) (k : string) : PyM A :=
  match find (fun kv => String.eqb (fst kv) k) d with
  | Some (_, v) => inr v
  | None => inl ("KeyError: " ++ k)%string
  end.

(** [d[k] = v] for a key [k] already present. *)
Definition dict_set {A} (d : list (string * A)) (k : string) (v : A) : list (string * A) :=
  map (fun kv => if String.eqb (fst kv) k then (k, v) else kv) d.

(** [xs[-1]] *)
Definition index_last {A} (xs : list A) : PyM A :=
  match rev xs with [] => inl "list index out of range"%string | x :: _ => inr x end.

(** [st.session_state]: [messages], [current_user], [last_analysis]. *)
Record Session := {
  messages : list (string * list Message);
  current_user : option string;
  last_analysis : option AnalysisResult
}.

(** The state after the initialization block of the first run. *)
Definition init_session : Session := {|
  messages := map (fun kv => (fst kv, snd kv)) DEMO_MESSAGES;
  current_user := None;
  last_analysis := None |}.

(** The options of the user selectbox. *)
Definition user_options : list string := ""%string :: map fst DEMO_MESSAGES.

(** One input of a run: the selected user, the text box, the Send button,
    and [datetime.now().strftime("%H:%M")]. *)
Record UIInput := {
  in_user : string;
  in_message : pystr;
  in_send : bool;
  in_time : string
}.

Section Page.

Variable analyze : pystr -> PyM AnalysisResult.

(** The left column; the boolean tells whether [st.rerun()] ended the run. *)
Definition chat_column (s : Session) (i : UIInput) : PyM (Session * bool) :=
  let user := in_user i in
  if String.eqb user "" then ret (s, false)
  else
    let s := {| messages := messages s; current_user := Some user;
                last_analysis := last_analysis s |} in
    conv <- dict_get (messages s) user ;;     (* the history and statistics *)
    if in_send i && negb (is_empty (in_message i)) then
      analysis <- analyze (in_message i) ;;
      let conv := conv ++ [{| m_sender := user; m_text := in_message i;
                              m_timestamp := in_time i;
                              m_severity := severity analysis |}] in
      ret ({| messages := dict_set (messages s) user conv;
              current_user := Some user;
              last_analysis := Some analysis |}, true)
    else ret (s, false).

(** The right column: the analysis it shows, and the state it leaves. *)
Definition analysis_column (s : Session) : PyM (Session * option AnalysisResult) :=
  match current_user s, last_analysis s with
  | Some _, Some analysis => ret (s, Some analysis)
  | Some u, None =>
      conv <- dict_get (messages s) u ;;
      last <- index_last conv ;;
      analysis <- analyze (m_text last) ;;
      ret ({| messages := messages s; current_user := current_user s;
              last_analysis := Some analysis |}, Some analysis)
  | None, _ => ret (s, None)
  end.

(** One run of the script from the session state [s]. *)
Definition run (s : Session) (i : UIInput) : PyM Session :=
  r <- chat_column s i ;;
  if snd r then ret (fst r)
  else
    r' <- analysis_column (fst r) ;;
    (match current_user (fst r'), snd r' with
     | Some u, Some _ => conv <- dict_get (messages (fst r')) u ;; ret (fst r')
     | _, _ => ret (fst r')
     end).

(** The states reached by runs whose selected user is one of the options. *)
Inductive reachable : Session -> Prop :=
| reachable_init : reachable init_session
| reachable_run s i s' :
    reachable s -> In (in_user i) user_options -> run s i = inr s' -> reachable s'.

End Page.

(** The counts of the "Conversation Health" metrics. *)
Definition severity_count (sev : string) (conv : list Message) : nat :=
  List.length (filter (fun m => String.eqb (m_severity m) sev) conv).

(** The "Risk interpretation" banner of the panel. *)
Definition risk_text (score : Z) : string :=
  if score <? 40 then " LOW RISK: Conversation is constructive and positive"%string
  else if score <? 70 then " MEDIUM RISK: Some tension present, needs monitoring"%string
  else " HIGH RISK: Significant conflict escalation detected"%string.

(** [score / 100], the value of the progress bar. *)
Definition progress_value (score : Z) : Q := fl (inject_Z score / inject_Z 100).

(* ------------------------------------------------------------------ *)
(** * Auxiliary definitions of the extensions *)

(** The float values of [_heuristic_analyze] as functions of the counts. *)
Definition heuristic_sentiment_score (neg_count : Z) : Q :=
  fmin (lit 9 10) (fadd (lit 4 10) (fmul (of_int neg_count) (lit 25 100))).

(** [all (k in triggered g) for k in triggered f] *)
Definition incl_strs (xs ys : list string) : bool :=
  forallb (fun x => existsb (String.eqb x) ys) xs.

(** The result of [analyze_text] for a blank text and the neutral signal. *)
Definition blank_result : AnalysisResult := {|
  conflict_score := 0; severity := "low"; flags := [no_negative_flag];
  suggestion := "No action needed"; word_count := 0; triggered_rules := [];
  model := zero_signal; model_error := None |}%string.

(** [xs == ys] on lists of strings. *)
Fixpoint strs_eqb (xs ys : list string) : bool :=
  match xs, ys with
  | [], [] => true
  | x :: xs', y :: ys' => String.eqb x y && strs_eqb xs' ys'
  | _, _ => false
  end.

Definition LOW_RULE_SETS : list (list string) :=
  [[]; ["negative_interaction"]; ["confrontational"]]%string.

(** The severities [analyze_text] produces. *)
Definition SEVERITIES : list string := ["low"; "medium"; "high"]%string.

(** What every reachable session satisfies. *)
Definition session_ok (s : Session) : Prop :=
  map fst (messages s) = map fst DEMO_MESSAGES /\
  (forall u conv, In (u, conv) (messages s) ->
     conv <> [] /\ Forall (fun m => In (m_severity m) SEVERITIES) conv) /\
  (forall u, current_user s = Some u -> In u (map fst DEMO_MESSAGES)).

(** Model environments for concrete runs: pipelines that load and answer,
    and pipelines that load but return no prediction. *)
Definition pipelines_env : ModelEnv := {|
  MODEL_AVAILABLE := true;
  sentiment_model := fun _ => inr [{| pred_label := Some "LABEL_0"%string; pred_score := Some (lit 91 100) |}];
  toxicity_model := fun _ => inr [{| pred_label := Some "non-toxic"%string; pred_score := Some (lit 7 10) |}];
  label_lower := fun l => if String.eqb l "LABEL_0" then "label_0"%string else l
|}.

Definition failing_env : ModelEnv := {|
  MODEL_AVAILABLE := true;
  sentiment_model := fun _ => inr [];
  toxicity_model := fun _ => inr [];
  label_lower := fun l => l
|}.

(** Inputs of a run: selecting Bob and sending a message, and selecting
    Alice without sending. *)
Definition send_bob : UIInput := {|
  in_user := "Bob"; in_message := enc "you never listen"; in_send := true; in_time := "14:09" |}%string.

Definition select_alice : UIInput := {|
  in_user := "Alice"; in_message := []; in_send := false; in_time := "10:27" |}%string.

(* ------------------------------------------------------------------ *)
(** * Unfolding lemmas *)

(** The model call and its fallback. *)
Definition model_used (m : PyM ModelSignal) : ModelSignal :=
  match m with inl _ => default_signal | inr mo => mo end.
Definition error_used (m : PyM ModelSignal) : option string :=
  match m with inl e => Some e | inr _ => None end.

Lemma analyze_text_eq db model_analyze text :
  analyze_text db model_analyze text =
  inr (analysis_of db text (model_used (model_analyze text)) (error_used (model_analyze text))).
Proof. unfold analyze_text; destruct (model_analyze text); reflexivity. Qed.

Lemma apply_rules_fields db text mo :
  let f := extract_rule_features db text mo in
  ro_conflict_score (apply_rules db text mo) = py_round_nd (calculate_conflict_score f) 3 /\
  ro_risk_level (apply_rules db text mo) = fst (classify (calculate_conflict_score f)) /\
  ro_recommendation (apply_rules db text mo) = snd (classify (calculate_conflict_score f)) /\
  ro_triggered_rules (apply_rules db text mo) = triggered f.
Proof. unfold apply_rules; cbv zeta; destruct (classify _); repeat split. Qed.

Lemma analysis_of_fields db text mo e :
  let f := extract_rule_features db text mo in
  let r := analysis_of db text mo e in
  conflict_score r = heuristic_score db text (rule_int_score f) /\
  severity r = severity_get (fst (classify (calculate_conflict_score f))) /\
  flags r = match map rule_flag (triggered f) ++ heuristic_flags db text with
            | [] => [no_negative_flag] | l => l end /\
  suggestion r = snd (classify (calculate_conflict_score f)) /\
  triggered_rules r = triggered f /\
  model r = mo /\ model_error r = e.
Proof.
  cbv zeta. destruct (apply_rules_fields db text mo) as (H1 & H2 & H3 & H4).
  unfold analysis_of, heuristic_score, heuristic_flags, rule_int_score.
  rewrite H1, H2, H3, H4.
  destruct (caps_test db text), (3 <=? count_bang text);
    cbn [conflict_score severity flags suggestion triggered_rules model model_error];
    rewrite ?app_nil_r, <- ?app_assoc; cbn [app]; repeat split;
    match goal with
    | |- match ?l with _ => _ end = _ => destruct l; reflexivity
    end.
Qed.

Lemma all_features_complete f : In f all_features.
Proof.
  apply (nth_error_In _ (features_index f)).
  destruct f as [[] [] [] [] [] [] []]; vm_compute; reflexivity.
Qed.

Lemma all_features_forall (P : Features -> bool) :
  forallb P all_features = true -> forall f, P f = true.
Proof.
  intros H f. rewrite forallb_forall in H. apply H, all_features_complete.
Qed.

Lemma rule_int_score_bounded f : 0 <= rule_int_score f <= 100.
Proof.
  pose proof (all_features_forall
                (fun f => (0 <=? rule_int_score f) && (rule_int_score f <=? 100))
                ltac:(vm_compute; reflexivity) f) as H.
  apply andb_true_iff in H as [H1 H2]. lia.
Qed.

Lemma heuristic_score_bounded db text b :
  0 <= b <= 100 -> 0 <= heuristic_score db text b <= 100.
Proof.
  unfold heuristic_score. intros Hb.
  destruct (caps_test db text), (3 <=? count_bang text); lia.
Qed.

(* ------------------------------------------------------------------ *)
(** * Claims *)

(** C1: for every text (over any Unicode database) and every outcome of the
    model call, [analyze_text] returns a result whose [conflict_score] lies
    in [0, 100], after the caps and exclamation adjustments. *)
Theorem conflict_score_in_0_100 db model_analyze text :
  exists r, analyze_text db model_analyze text = inr r /\ 0 <= conflict_score r <= 100.
Proof.
  eexists; split; [apply analyze_text_eq |].
  destruct (analysis_of_fields db text (model_used (model_analyze text))
              (error_used (model_analyze text))) as (-> & _).
  apply heuristic_score_bounded, rule_int_score_bounded.
Qed.

(** C6: an exception of the model call is absorbed: the result is the
    analysis with the default signal {neutral, 0.0, 0.0} and [model_error]
    the exception's message; after a successful call it is the analysis with
    the model's signal and no [model_error]; [analyze_text] never raises. *)
Theorem model_failure_absorbed db model_analyze text :
  exists r, analyze_text db model_analyze text = inr r /\
    match model_analyze text with
    | inl exc =>
        r = analysis_of db text default_signal (Some exc) /\
        model r = default_signal /\ model_error r = Some exc /\
        sentiment default_signal = "neutral"%string /\
        sentiment_score default_signal = 0%Q /\ toxicity default_signal = 0%Q
    | inr mo => r = analysis_of db text mo None /\ model r = mo /\ model_error r = None
    end.
Proof.
  eexists; split; [apply analyze_text_eq |].
  destruct (model_analyze text) as [exc | mo]; cbn [model_used error_used];
    [destruct (analysis_of_fields db text default_signal (Some exc))
       as (_ & _ & _ & _ & _ & Hm & He)
    | destruct (analysis_of_fields db text mo None) as (_ & _ & _ & _ & _ & Hm & He)];
    repeat split; assumption.
Qed.

(** C8: [severity] is the lower-cased tier of the rule-layer float score,
    before the caps and exclamation adjustments; these never change it, e.g.
    "STOP IT!!!" with sentiment score 0.82 gets conflict_score 40 from a rule
    score of 0.25 and keeps severity "low". *)
Theorem severity_before_heuristics db model_analyze text :
  (exists r, analyze_text db model_analyze text = inr r /\
     severity r = severity_get (fst (classify (calculate_conflict_score
                    (extract_rule_features db text (model r)))))) /\
  (forall s, severity_get (fst (classify s)) =
     if Qltb s (lit 3 10) then "low"%string
     else if Qltb s (lit 6 10) then "medium"%string else "high"%string) /\
  (let stop_it := {| sentiment := "neutral"; sentiment_score := lit 82 100;
                     toxicity := 0; subjectivity := None |} in
   let r := analysis_of ascii_db (enc "STOP IT!!!") stop_it None in
   calculate_conflict_score (extract_rule_features ascii_db (enc "STOP IT!!!") stop_it)
     = lit 25 100 /\
   conflict_score r = 40 /\ severity r = "low"%string).
Proof.
  split; [| split].
  - eexists; split; [apply analyze_text_eq |].
    destruct (analysis_of_fields db text (model_used (model_analyze text))
                (error_used (model_analyze text))) as (_ & Hs & _ & _ & _ & Hm & _).
    rewrite Hs, Hm. reflexivity.
  - intros s. unfold classify.
    destruct (Qltb s (lit 3 10)); [reflexivity |].
    destruct (Qltb s (lit 6 10)); reflexivity.
  - vm_compute. repeat split.
Qed.

(** C9: the flags are one "Rule triggered: <Rule Name>" per triggered rule
    (underscores turned into spaces, title-cased), in the order of
    [triggered_rules], then the heuristic flags; when no rule fired and no
    heuristic applied, they are the single "no negative indicators" flag. *)
Theorem flags_assembly db model_analyze text :
  exists r, analyze_text db model_analyze text = inr r /\
    flags r = match map rule_flag (triggered_rules r) ++ heuristic_flags db text with
              | [] => [no_negative_flag] | l => l end /\
    (triggered_rules r = [] -> caps_test db text = false -> count_bang text < 3 ->
     flags r = [no_negative_flag]) /\
    map rule_flag (map fst (features_items (extract_rule_features db text (model r)))) =
      ["Rule triggered: Negative Tone"; "Rule triggered: Norm Violation";
       "Rule triggered: Negative Interaction"; "Rule triggered: Rejection";
       "Rule triggered: Blame"; "Rule triggered: Confrontational";
       "Rule triggered: Toxic"]%string.
Proof.
  eexists; split; [apply analyze_text_eq |].
  destruct (analysis_of_fields db text (model_used (model_analyze text))
              (error_used (model_analyze text))) as (_ & _ & Hf & _ & Ht & _).
  rewrite Hf, Ht. split; [reflexivity | split; [| reflexivity]].
  intros Hnil Hcaps Hbang. rewrite Hnil. unfold heuristic_flags.
  rewrite Hcaps. replace (3 <=? count_bang text) with false by lia.
  reflexivity.
Qed.

(* ------------------------------------------------------------------ *)
(** * Helper lemmas on scores and tokens *)

Lemma Qeqb_syn_eq x y : Qeqb_syn x y = true -> x = y.
Proof.
  destruct x as [n d], y as [n' d']; unfold Qeqb_syn; simpl.
  rewrite andb_true_iff, Z.eqb_eq, Pos.eqb_eq. intros [-> ->]. reflexivity.
Qed.

Lemma Qeqb_syn_refl x : Qeqb_syn x x = true.
Proof. unfold Qeqb_syn. rewrite Z.eqb_refl, Pos.eqb_refl. reflexivity. Qed.

Lemma Qltb_iff x y : Qltb x y = true <-> (x < y)%Q.
Proof.
  unfold Qltb. rewrite negb_true_iff. split.
  - intros H. apply Qnot_le_lt. intros Hle. apply Qle_bool_iff in Hle. congruence.
  - intros H. destruct (Qle_bool y x) eqn:E; [| reflexivity].
    apply Qle_bool_iff in E. exfalso. apply (Qlt_not_le _ _ H E).
Qed.

Lemma Qltb_false x y : Qltb x y = false <-> (y <= x)%Q.
Proof.
  unfold Qltb. rewrite negb_false_iff. apply Qle_bool_iff.
Qed.

Lemma calculate_monotone f g :
  features_leb f g = true -> (calculate_conflict_score f <= calculate_conflict_score g)%Q.
Proof.
  assert (Htab : forallb (fun p => forallb (fun q => implb (features_leb (fst p) (fst q))
                   (Qle_bool (snd p) (snd q))) score_table) score_table = true)
    by (vm_compute; reflexivity).
  intros H. apply Qle_bool_iff.
  rewrite forallb_forall in Htab.
  assert (Hin : forall h, In (h, calculate_conflict_score h) score_table)
    by (intros h; apply (in_map (fun f => (f, calculate_conflict_score f))),
                        all_features_complete).
  specialize (Htab _ (Hin f)). rewrite forallb_forall in Htab.
  specialize (Htab _ (Hin g)). cbn [fst snd] in Htab. rewrite H in Htab. exact Htab.
Qed.

Lemma implb_set (x c : bool) : implb x (if c then true else x) = true.
Proof. destruct x, c; reflexivity. Qed.

Lemma features_set_leb f k : features_leb f (features_set f k true) = true.
Proof.
  unfold features_leb, features_set; cbn [fs_negative_tone fs_norm_violation
    fs_negative_interaction fs_rejection fs_blame fs_confrontational fs_toxic].
  rewrite !implb_set. reflexivity.
Qed.

Lemma score_table_forall (P : Features -> Q -> bool) :
  forallb (fun p => P (fst p) (snd p)) score_table = true ->
  forall f, P f (calculate_conflict_score f) = true.
Proof.
  intros H f. rewrite forallb_forall in H.
  apply (H (f, calculate_conflict_score f)).
  apply (in_map (fun f => (f, calculate_conflict_score f))), all_features_complete.
Qed.

(** C2 (counterexample): with blame and confrontational true the spec's sum
    is 0.30 + 0.25 + 0.15 = 0.70, but the float accumulation returns
    0.7000000000000001, neither 0.7 nor the double nearest to it. *)
Lemma score_not_exact_sum_blame_confrontational :
  spec_score blame_confrontational == 7 # 10 /\
  ~ (calculate_conflict_score blame_confrontational == spec_score blame_confrontational) /\
  calculate_conflict_score blame_confrontational <> fl (spec_score blame_confrontational) /\
  calculate_conflict_score blame_confrontational = 6305039478318695 # 9007199254740992.
Proof.
  assert (Hne : Qeqb_syn (calculate_conflict_score blame_confrontational)
                         (fl (spec_score blame_confrontational)) = false)
    by (vm_compute; reflexivity).
  split; [vm_compute; reflexivity |].
  split; [vm_compute; discriminate |].
  split; [| vm_compute; reflexivity].
  intros H. rewrite H, Qeqb_syn_refl in Hne. discriminate Hne.
Qed.

(** C2 (amended): [calculate_conflict_score] adds the weights of the true
    features and then the synergy bonuses in binary64 arithmetic, in the
    listed order, and returns [min(sum, 1.0)].  The result lies in [0,1] and
    is within 2^-52 of the spec's exact clamped sum; it is the double nearest
    that sum for all but six feature sets; rounded to 3 decimals, as
    [apply_rules] reports it, it is always the double nearest that sum. *)
Theorem score_float_sum_of_weights :
  (forall f, 0 <= calculate_conflict_score f <= 1)%Q /\
  (forall f, Qabs (calculate_conflict_score f - spec_score f) <= 1 # 4503599627370496)%Q /\
  (forall f, py_round_nd (calculate_conflict_score f) 3 = fl (spec_score f)) /\
  (forall db text mo,
     ro_conflict_score (apply_rules db text mo)
     = fl (spec_score (extract_rule_features db text mo))) /\
  List.length (filter (fun p => negb (Qeqb_syn (snd p) (fl (spec_score (fst p)))))
                      score_table) = 6%nat.
Proof.
  split; [| split; [| split; [| split]]].
  - intros f. pose proof (score_table_forall
      (fun _ s => Qle_bool 0 s && Qle_bool s 1) ltac:(vm_compute; reflexivity) f) as H.
    apply andb_true_iff in H as [H1 H2]. split; apply Qle_bool_iff; assumption.
  - intros f. apply Qle_bool_iff. apply (score_table_forall
      (fun f s => Qle_bool (Qabs (s - spec_score f)) (1 # 4503599627370496))).
    vm_compute; reflexivity.
  - intros f. apply Qeqb_syn_eq. apply (score_table_forall
      (fun f s => Qeqb_syn (py_round_nd s 3) (fl (spec_score f)))).
    vm_compute; reflexivity.
  - intros db text mo. destruct (apply_rules_fields db text mo) as (-> & _).
    apply Qeqb_syn_eq. apply (score_table_forall
      (fun f s => Qeqb_syn (py_round_nd s 3) (fl (spec_score f)))).
    vm_compute; reflexivity.
  - vm_compute; reflexivity.
Qed.

(** C3: the classifier bins the score with the source's literals 0.3 and 0.6,
    inclusive below and exclusive above; [apply_rules] classifies the clamped
    score; a computed score of exactly 0.3 is MEDIUM, of exactly 0.6 HIGH,
    and every feature set whose exact sum is 0.30 (resp. 0.60) computes
    exactly 0.3 (resp. 0.6). *)
Theorem risk_classifier_bins :
  (forall s, s < lit 3 10 -> classify s = ("LOW", "No action needed")%string)%Q /\
  (forall s, lit 3 10 <= s -> s < lit 6 10 ->
     classify s = ("MEDIUM", "Suggest cooling-off or rephrasing")%string)%Q /\
  (forall s, lit 6 10 <= s -> classify s = ("HIGH", "Intervene or alert moderator")%string)%Q /\
  (forall db text mo,
     let score := calculate_conflict_score (extract_rule_features db text mo) in
     ro_risk_level (apply_rules db text mo) = fst (classify score) /\
     ro_recommendation (apply_rules db text mo) = snd (classify score)) /\
  (forall f, calculate_conflict_score f = lit 3 10 ->
     fst (classify (calculate_conflict_score f)) = "MEDIUM"%string) /\
  (forall f, calculate_conflict_score f = lit 6 10 ->
     fst (classify (calculate_conflict_score f)) = "HIGH"%string) /\
  (forall f, spec_score f == 3 # 10 -> calculate_conflict_score f = lit 3 10)%Q /\
  (forall f, spec_score f == 6 # 10 -> calculate_conflict_score f = lit 6 10)%Q.
Proof.
  assert (Hlow : forall s, (s < lit 3 10)%Q -> classify s = ("LOW", "No action needed")%string).
  { intros s Hs. unfold classify. apply Qltb_iff in Hs. rewrite Hs. reflexivity. }
  assert (Hmed : forall s, (lit 3 10 <= s)%Q -> (s < lit 6 10)%Q ->
            classify s = ("MEDIUM", "Suggest cooling-off or rephrasing")%string).
  { intros s H1 H2. unfold classify. apply Qltb_false in H1. apply Qltb_iff in H2.
    rewrite H1, H2. reflexivity. }
  assert (Hhigh : forall s, (lit 6 10 <= s)%Q ->
             classify s = ("HIGH", "Intervene or alert moderator")%string).
  { intros s H. unfold classify.
    assert (H3 : Qltb s (lit 3 10) = false).
    { apply Qltb_false. eapply Qle_trans; [| exact H]. vm_compute; discriminate. }
    apply Qltb_false in H. rewrite H3, H. reflexivity. }
  split; [exact Hlow | split; [exact Hmed | split; [exact Hhigh | split]]].
  - intros db text mo. destruct (apply_rules_fields db text mo) as (_ & H2 & H3 & _).
    split; assumption.
  - split; [| split; [| split]].
    + intros f ->. rewrite Hmed; [reflexivity | apply Qle_refl | vm_compute; reflexivity].
    + intros f ->. rewrite Hhigh; [reflexivity | apply Qle_refl].
    + intros f H. apply Qeqb_syn_eq. apply Qeq_bool_iff in H. revert H.
      pose proof (score_table_forall
        (fun f s => implb (Qeq_bool (spec_score f) (3 # 10)) (Qeqb_syn s (lit 3 10)))
        ltac:(vm_compute; reflexivity) f) as Hf.
      intros H. cbv beta in Hf. rewrite H in Hf. exact Hf.
    + intros f H. apply Qeqb_syn_eq. apply Qeq_bool_iff in H. revert H.
      pose proof (score_table_forall
        (fun f s => implb (Qeq_bool (spec_score f) (6 # 10)) (Qeqb_syn s (lit 6 10)))
        ltac:(vm_compute; reflexivity) f) as Hf.
      intros H. cbv beta in Hf. rewrite H in Hf. exact Hf.
Qed.

(** C4: setting any feature to true never lowers the score. *)
Theorem score_monotone_in_each_feature f k :
  (calculate_conflict_score f <= calculate_conflict_score (features_set f k true))%Q.
Proof. apply calculate_monotone, features_set_leb. Qed.

(* ------------------------------------------------------------------ *)
(** * Tokens *)

Lemma str_eqb_eq s t : str_eqb s t = true <-> s = t.
Proof.
  revert t; induction s as [| c s IH]; intros [| d t]; cbn; split; intros H;
    try discriminate; try reflexivity.
  - apply andb_true_iff in H as [H1 H2]. apply Z.eqb_eq in H1. apply IH in H2. congruence.
  - injection H as -> ->. rewrite Z.eqb_refl. apply IH. reflexivity.
Qed.

Lemma mem_In x xs : mem x xs = true <-> In x xs.
Proof.
  unfold mem. rewrite existsb_exists. split.
  - intros (y & Hy & E). apply str_eqb_eq in E. subst. exact Hy.
  - intros H. exists x. split; [exact H | apply str_eqb_eq; reflexivity].
Qed.

Lemma count_overlap_pos tokens vocab :
  Nat.ltb 0 (count_overlap tokens vocab) = true <-> exists t, In t tokens /\ In t vocab.
Proof.
  unfold count_overlap. rewrite Nat.ltb_lt. split.
  - intros H. destruct (filter (fun t => mem t vocab) tokens) as [| t l] eqn:E;
      [cbn in H; lia |].
    assert (Ht : In t (filter (fun t => mem t vocab) tokens)) by (rewrite E; left; reflexivity).
    apply filter_In in Ht as [H1 H2]. apply mem_In in H2. exists t. split; assumption.
  - intros (t & H1 & H2).
    assert (Ht : In t (filter (fun t => mem t vocab) tokens))
      by (apply filter_In; split; [exact H1 | apply mem_In; exact H2]).
    destruct (filter _ _); [contradiction | cbn; lia].
Qed.

(** Every character of every run satisfies the predicate. *)
Lemma runs_chars p cur s :
  (forall c, In c cur -> p c = true) ->
  forall t, In t (runs p cur s) -> forall c, In c t -> p c = true.
Proof.
  revert cur; induction s as [| c0 s IH]; intros cur Hcur t Ht c Hc; cbn in Ht.
  - destruct cur; [contradiction |].
    destruct Ht as [<- | []]. apply Hcur, in_rev, Hc.
  - destruct (p c0) eqn:E.
    + apply (IH (c0 :: cur)) with (t := t); [| exact Ht | exact Hc].
      intros d [<- | Hd]; [exact E | apply Hcur, Hd].
    + destruct cur as [| c1 cur'].
      * apply (IH []) with (t := t); [intros d [] | exact Ht | exact Hc].
      * destruct Ht as [<- | Ht].
        -- apply Hcur, in_rev, Hc.
        -- apply (IH []) with (t := t); [intros d [] | exact Ht | exact Hc].
Qed.

(** C5 (counterexample): negative_tone does not need an adjacent
    "don't like": "i dont really like it" has no negative-evaluation token
    and no adjacent "dont like" or "don't like" pair, yet negative_tone holds;
    and "I don't like it", which contains the bigram, does not set it. *)
Lemma negative_tone_not_bigram :
  let tokens := tokenize ascii_db (enc "i dont really like it") in
  negative_tone_pattern tokens = true /\
  count_overlap tokens NEGATIVE_EVALUATIONS = 0%nat /\
  adjacent_pair (enc "dont") (enc "like") tokens = false /\
  adjacent_pair (enc "don't") (enc "like") tokens = false /\
  negative_tone_pattern (tokenize ascii_db (enc "I don't like it")) = false.
Proof. vm_compute. repeat split. Qed.

(** C5 (amended): negative_tone holds exactly when some token is in
    NEGATIVE_EVALUATIONS or the tokens contain both "dont" (without
    apostrophe) and "like", anywhere and in any order. *)
Theorem negative_tone_iff db text mo :
  let tokens := tokenize db text in
  fs_negative_tone (extract_rule_features db text mo) = true <->
  (exists t, In t tokens /\ In t NEGATIVE_EVALUATIONS) \/
  (In (enc "dont") tokens /\ In (enc "like") tokens).
Proof.
  cbv zeta. cbn [fs_negative_tone extract_rule_features]. unfold negative_tone_pattern.
  rewrite orb_true_iff, andb_true_iff, count_overlap_pos, !mem_In. reflexivity.
Qed.

(** C10: when the apostrophe (code point 39) is not a \w character, as in
    Python, no token contains it, so the entries "don't", "can't" and
    "you're" never match a token; "I don't like this" tokenizes to
    i, don, t, like, this and sets neither rejection nor the "dont"+"like"
    branch of negative_tone. *)
Theorem no_apostrophe_in_tokens db (Hw : u_isword db 39 = false) text :
  (forall t, In t (tokenize db text) -> ~ In 39 t) /\
  (forall w, In w (map enc ["don't"; "can't"; "you're"]%string) ->
     ~ In w (tokenize db text)) /\
  (let tokens := tokenize ascii_db (enc "I don't like this") in
   tokens = map enc ["i"; "don"; "t"; "like"; "this"]%string /\
   rejection_pattern tokens = false /\
   (mem (enc "dont") tokens && mem (enc "like") tokens) = false).
Proof.
  assert (H1 : forall t, In t (tokenize db text) -> ~ In 39 t).
  { intros t Ht H39. unfold tokenize in Ht.
    pose proof (runs_chars (u_isword db) [] _ (fun c (H : In c []) => match H with end)
                  t Ht 39 H39) as E.
    congruence. }
  split; [exact H1 | split].
  - intros w Hw' Hin. apply (H1 w Hin).
    destruct Hw' as [<- | [<- | [<- | []]]]; vm_compute; auto 6.
  - vm_compute. repeat split.
Qed.

(* ------------------------------------------------------------------ *)
(** * Rounding error of binary64 *)

Lemma pos_pow_1 p : Pos.pow 1 p = 1%positive.
Proof.
  induction p using Pos.peano_ind; [reflexivity |].
  rewrite Pos.pow_succ_r, IHp. reflexivity.
Qed.

Lemma pow2_nonneg k : 0 <= k -> pow2 k = (2 ^ k # 1).
Proof.
  intros Hk. destruct k as [| p | p]; [reflexivity | | lia].
  unfold pow2. change (Qpower (2 # 1) (Zpos p)) with (Qpower_positive (2 # 1) p).
  rewrite Qpower_decomp_positive, pos_pow_1. reflexivity.
Qed.

Lemma pow2_pos e : (0 < pow2 e)%Q.
Proof. apply Qpower_0_lt. reflexivity. Qed.

Lemma pow2_inv e : (pow2 (- e) * pow2 e == 1)%Q.
Proof.
  unfold pow2. rewrite <- Qpower_plus by discriminate.
  replace (- e + e) with 0 by lia. reflexivity.
Qed.

Lemma rne_int m : rne (m # 1) = m.
Proof.
  unfold rne; cbn [Qnum Qden]. rewrite Z.div_1_r, Z.mod_1_r. reflexivity.
Qed.

Lemma rne_le q : (inject_Z (rne q) <= q + (1 # 2))%Q.
Proof.
  destruct q as [n d]. unfold rne; cbn [Qnum Qden].
  pose proof (Z.div_mod n (Zpos d) ltac:(lia)) as Hdm.
  pose proof (Z.mod_pos_bound n (Zpos d) ltac:(lia)) as Hb.
  set (f := n / Zpos d) in *. set (r := n mod Zpos d) in *.
  unfold Qle, Qplus, inject_Z; cbn [Qnum Qden]; rewrite ?Pos2Z.inj_mul.
  destruct (2 * r <? Zpos d) eqn:E1; [nia |].
  apply Z.ltb_ge in E1.
  destruct (Zpos d <? 2 * r); [nia |].
  destruct (Z.even f); nia.
Qed.

Lemma Qred_inject_Z n : Qred (inject_Z n) = inject_Z n.
Proof.
  unfold Qred, inject_Z.
  pose proof (Z.ggcd_correct_divisors n 1) as Hd.
  pose proof (Z.ggcd_gcd n 1) as Hg.
  destruct (Z.ggcd n 1) as [g [a b]]. cbn [fst snd] in *.
  rewrite Z.gcd_1_r in Hg. subst g. destruct Hd as [Ha Hb].
  rewrite Z.mul_1_l in Ha, Hb. subst. reflexivity.
Qed.

Lemma fexp_int n : 0 < n < 2 ^ 53 -> fexp (inject_Z n) <= 0.
Proof.
  intros Hn. unfold fexp; cbn [Qnum Qden inject_Z].
  assert (Z.log2 n < 53) by (apply Z.log2_lt_pow2; lia).
  change (Z.log2 (Zpos 1)) with 0.
  destruct (Qltb _ _); lia.
Qed.

Lemma fexp_bound q k : (0 < q)%Q -> (q < inject_Z (2 ^ k))%Q -> 0 <= k -> fexp q <= k - 52.
Proof.
  intros Hq Hk Hk0. destruct q as [n d].
  unfold Qlt in Hq, Hk; cbn [Qnum Qden inject_Z] in Hq, Hk.
  unfold fexp; cbn [Qnum Qden].
  pose proof (Z.log2_spec (Zpos d) ltac:(lia)) as [_ Hd].
  pose proof (Z.log2_nonneg (Zpos d)) as Hl.
  rewrite <- Z.add_1_r in Hd.
  assert (Hn : n < 2 ^ (k + Z.log2 (Zpos d) + 1)).
  { rewrite <- Z.add_assoc, Z.pow_add_r by lia.
    assert (0 < 2 ^ k) by (apply Z.pow_pos_nonneg; lia). nia. }
  apply Z.log2_lt_pow2 in Hn; [| lia].
  destruct (Qltb _ _); lia.
Qed.

(** A positive integer below 2^53 is a float: [float(n) = n]. *)
Lemma fl_int n : 0 <= n < 2 ^ 53 -> fl (inject_Z n) = inject_Z n.
Proof.
  intros Hn. destruct (Z.eq_dec n 0) as [-> | Hn0]; [reflexivity |].
  unfold fl.
  replace (Qeq_bool (inject_Z n) 0) with false
    by (symmetry; apply not_true_iff_false; rewrite Qeq_bool_iff;
        unfold Qeq; cbn; lia).
  replace (Qle_bool (inject_Z n) 0) with false
    by (symmetry; apply not_true_iff_false; rewrite Qle_bool_iff;
        unfold Qle; cbn; lia).
  unfold round_pos.
  pose proof (fexp_int n ltac:(lia)) as He.
  set (e := fexp (inject_Z n)) in *.
  rewrite (pow2_nonneg (- e)) by lia.
  change (inject_Z n * (2 ^ (- e) # 1))%Q with ((n * 2 ^ (- e)) # 1)%Q.
  rewrite rne_int.
  rewrite <- (Qred_inject_Z n). apply Qred_complete.
  rewrite inject_Z_mult, Zpower_Qpower by lia.
  change (inject_Z 2) with (2 # 1). fold (pow2 (- e)).
  rewrite <- Qmult_assoc, pow2_inv. apply Qmult_1_r.
Qed.

(** Below 2^48 a float is within 2^-5 of the exact value. *)
Lemma fl_err_48 x : (0 < x)%Q -> (x < inject_Z (2 ^ 48))%Q -> (fl x <= x + (1 # 32))%Q.
Proof.
  intros Hx Hx48.
  assert (He : fexp x <= -4) by (pose proof (fexp_bound x 48 Hx Hx48); lia).
  unfold fl.
  replace (Qeq_bool x 0) with false
    by (symmetry; apply not_true_iff_false; rewrite Qeq_bool_iff;
        intros E; rewrite E in Hx; discriminate).
  replace (Qle_bool x 0) with false
    by (symmetry; apply not_true_iff_false; rewrite Qle_bool_iff;
        intros E; apply (Qlt_not_le _ _ Hx E)).
  unfold round_pos. set (e := fexp x) in *. rewrite Qred_correct.
  eapply Qle_trans.
  { apply Qmult_le_compat_r; [apply rne_le | apply Qlt_le_weak, pow2_pos]. }
  rewrite Qmult_plus_distr_l, <- Qmult_assoc, pow2_inv, Qmult_1_r.
  apply Qplus_le_r.
  assert (Hp : (pow2 e <= pow2 (-4))%Q) by (apply Qpower_le_compat_l; [lia | discriminate]).
  eapply Qle_trans; [apply Qmult_le_l; [reflexivity | exact Hp] |].
  apply Qle_refl.
Qed.

(** The caps test [caps_count > len(text) * 0.3] fires whenever the count
    exceeds 30% of a length below 2^49. *)
Lemma caps_threshold_small (n caps : Z) :
  0 < n < 2 ^ 49 -> 3 * n < 10 * caps ->
  Qltb (fmul (of_int n) (lit 3 10)) (inject_Z caps) = true.
Proof.
  intros Hn Hc. unfold fmul, of_int. rewrite fl_int by lia.
  replace (lit 3 10) with (5404319552844595 # 18014398509481984) by (vm_compute; reflexivity).
  apply Qltb_iff. eapply Qle_lt_trans; [apply fl_err_48 |].
  - unfold Qlt; cbn [Qnum Qden inject_Z Qmult]. lia.
  - unfold Qlt; cbn [Qnum Qden inject_Z Qmult]. change (2 ^ 48) with 281474976710656.
    change (2 ^ 49) with 562949953421312 in Hn. lia.
  - unfold Qlt, Qplus; cbn [Qnum Qden inject_Z Qmult]. rewrite ?Pos2Z.inj_mul. lia.
Qed.

(* ------------------------------------------------------------------ *)
(** * Helpers for the extensions *)
Lemma Z_range_forall (P : Z -> bool) (lo : Z) (k : nat) :
  forallb P (map (fun i => lo + Z.of_nat i) (seq 0 k)) = true ->
  forall n, lo <= n < lo + Z.of_nat k -> P n = true.
Proof.
  intros H n Hn. rewrite forallb_forall in H. apply H, in_map_iff.
  exists (Z.to_nat (n - lo)). split; [lia | apply in_seq; lia].
Qed.

Lemma filter_length_bound {A} (p : A -> bool) (l : list A) :
  (List.length (filter p l) <= List.length l)%nat.
Proof. induction l as [| a l IH]; cbn; [lia | destruct (p a); cbn; lia]. Qed.

Lemma count_in_range words t : 0 <= count_in words t <= Z.of_nat (List.length words).
Proof. unfold count_in. pose proof (filter_length_bound (contains t) words). lia. Qed.

Lemma heuristic_analyze_eq db text :
  let neg_count := count_in neg_words (u_lower db text) in
  let tox_count := count_in tox_words (u_lower db text) in
  heuristic_analyze db text =
  {| sentiment := if 0 <? neg_count then "negative"%string else "neutral"%string;
     sentiment_score := py_round_nd (heuristic_sentiment_score neg_count) 3;
     toxicity := py_round_nd (fmin (lit 1 1) (fmul (of_int tox_count) (lit 3 10))) 3;
     subjectivity := Some (py_round_nd (fmin (lit 1 1)
                       (fadd (heuristic_sentiment_score neg_count) (lit 2 10))) 3) |}.
Proof. cbv delta [heuristic_analyze heuristic_sentiment_score] beta zeta. reflexivity. Qed.

Lemma Qltb_mono_r c x y : (x <= y)%Q -> Qltb c x = true -> Qltb c y = true.
Proof. rewrite !Qltb_iff. intros H1 H2. eapply Qlt_le_trans; eassumption. Qed.

Lemma lstrip_all p s : forallb p s = true -> lstrip p s = [].
Proof.
  induction s as [| c s IH]; cbn; [reflexivity |].
  intros H. apply andb_true_iff in H as [-> H]. apply IH, H.
Qed.

Lemma lstrip_nil_all p s : lstrip p s = [] -> forallb p s = true.
Proof.
  induction s as [| c s IH]; cbn; [reflexivity |].
  destruct (p c); [exact IH | discriminate].
Qed.

Lemma lstrip_cons_head p s c s' : lstrip p s = c :: s' -> p c = false.
Proof.
  induction s as [| d s IH]; cbn; [discriminate |].
  destruct (p d) eqn:Ed; [exact IH | intros [= <- _]; exact Ed].
Qed.

Lemma lstrip_snoc p l c : p c = false -> lstrip p (l ++ [c]) <> [].
Proof.
  intros Hc. induction l as [| d l IH]; cbn.
  - rewrite Hc. discriminate.
  - destruct (p d); [exact IH | discriminate].
Qed.

Lemma runs_none p s : forallb (fun c => negb (p c)) s = true -> runs p [] s = [].
Proof.
  induction s as [| c s IH]; cbn; [reflexivity |].
  intros H. apply andb_true_iff in H as [Hc H]. apply negb_true_iff in Hc.
  rewrite Hc. apply IH, H.
Qed.

Lemma count_if_none (p : Z -> bool) s : forallb (fun c => negb (p c)) s = true -> count_if p s = 0.
Proof.
  unfold count_if. induction s as [| c s IH]; cbn; [reflexivity |].
  intros H. apply andb_true_iff in H as [Hc H]. apply negb_true_iff in Hc.
  rewrite Hc. apply IH, H.
Qed.

Lemma rne_nonneg q : (0 <= q)%Q -> 0 <= rne q.
Proof.
  destruct q as [n d]. unfold Qle. cbn [Qnum Qden]. intros H.
  unfold rne. cbv zeta. cbn [Qnum Qden].
  assert (0 <= n / Z.pos d) by (apply Z.div_pos; lia).
  destruct (2 * (n mod Z.pos d) <? Z.pos d); [lia |].
  destruct (Z.pos d <? 2 * (n mod Z.pos d)); [lia |].
  destruct (Z.even (n / Z.pos d)); lia.
Qed.

Lemma fl_nonneg q : (0 <= q)%Q -> (0 <= fl q)%Q.
Proof.
  intros H. unfold fl. destruct (Qeq_bool q 0) eqn:E0; [apply Qle_refl |].
  destruct (Qle_bool q 0) eqn:E1.
  - apply Qle_bool_iff in E1. apply Qeq_bool_neq in E0.
    exfalso. apply E0. apply Qle_antisym; assumption.
  - unfold round_pos. rewrite Qred_correct. apply Qmult_le_0_compat.
    + unfold Qle; cbn. rewrite Z.mul_1_r. apply rne_nonneg.
      apply Qmult_le_0_compat; [exact H |].
      apply Qlt_le_weak, pow2_pos.
    + apply Qlt_le_weak, pow2_pos.
Qed.

(* ------------------------------------------------------------------ *)
(** * Extensions: model.py *)
(** _heuristic_analyze: with [n] the number of words of [neg_words]
    occurring in the lower-cased text (as substrings), the sentiment is
    neutral, score 0.4, subjectivity 0.6 for [n = 0]; negative, 0.65, 0.85
    for [n = 1]; negative, 0.9, 1.0 for [n >= 2]. *)
Theorem heuristic_sentiment_by_count db text :
  let n := count_in neg_words (u_lower db text) in
  let r := heuristic_analyze db text in
  (n = 0 -> sentiment r = "neutral"%string /\ sentiment_score r = lit 4 10 /\
            subjectivity r = Some (lit 6 10)) /\
  (n = 1 -> sentiment r = "negative"%string /\ sentiment_score r = lit 65 100 /\
            subjectivity r = Some (lit 85 100)) /\
  (2 <= n -> sentiment r = "negative"%string /\ sentiment_score r = lit 9 10 /\
             subjectivity r = Some (lit 1 1)).
Proof.
  cbv zeta. rewrite heuristic_analyze_eq. cbv zeta.
  pose proof (count_in_range neg_words (u_lower db text)) as Hr.
  revert Hr. generalize (count_in neg_words (u_lower db text)) as n. intros n Hr.
  cbn [sentiment sentiment_score subjectivity].
  split; [| split].
  - intros ->. split; [reflexivity |]. vm_compute. split; reflexivity.
  - intros ->. split; [reflexivity |]. vm_compute. split; reflexivity.
  - intros Hn.
    pose proof (Z_range_forall (fun n =>
      Qeqb_syn (py_round_nd (heuristic_sentiment_score n) 3) (lit 9 10) &&
      Qeqb_syn (py_round_nd (fmin (lit 1 1) (fadd (heuristic_sentiment_score n) (lit 2 10))) 3)
        (lit 1 1)) 2 14 ltac:(vm_compute; reflexivity) n ltac:(cbn in Hr; lia)) as H2.
    cbv beta in H2. apply andb_true_iff in H2 as [Ha Hb].
    assert (E : (0 <? n) = true) by (apply Z.ltb_lt; lia). rewrite E.
    rewrite (Qeqb_syn_eq _ _ Ha), (Qeqb_syn_eq _ _ Hb). repeat split.
Qed.

(** _heuristic_analyze: the toxicity is 0.0, 0.3, 0.6, 0.9 or 1.0 for 0, 1,
    2, 3 or 4 words of [tox_words] in the lower-cased text, so under this
    model the [toxic] rule (toxicity > 0.4) fires exactly when at least two
    of them occur. *)
Theorem heuristic_toxicity_by_count db text text' :
  let m := count_in tox_words (u_lower db text) in
  nth (Z.to_nat m) [0; lit 3 10; lit 6 10; lit 9 10; lit 1 1]%Q 0%Q
    = toxicity (heuristic_analyze db text) /\
  fs_toxic (extract_rule_features db text' (heuristic_analyze db text)) = (2 <=? m).
Proof.
  cbv zeta. rewrite heuristic_analyze_eq. cbv zeta. cbn [toxicity fs_toxic extract_rule_features].
  pose proof (count_in_range tox_words (u_lower db text)) as Hr.
  revert Hr. generalize (count_in tox_words (u_lower db text)) as m. intros m Hr.
  pose proof (Z_range_forall (fun m =>
    let t := py_round_nd (fmin (lit 1 1) (fmul (of_int m) (lit 3 10))) 3 in
    Qeqb_syn (nth (Z.to_nat m) [0; lit 3 10; lit 6 10; lit 9 10; lit 1 1]%Q 0%Q) t &&
    Bool.eqb (Qltb (lit 4 10) t) (2 <=? m)) 0 5 ltac:(vm_compute; reflexivity) m
    ltac:(cbn in Hr; lia)) as H.
  cbv beta zeta in H. apply andb_true_iff in H as [H1 H2].
  split; [apply Qeqb_syn_eq, H1 | apply Bool.eqb_prop, H2].
Qed.

(** Rules over the heuristic model: blame fires exactly with a second-person
    token and (an absolute or a word of [neg_words]); confrontational
    exactly with a directive token and a word of [neg_words];
    negative_interaction exactly with a word of [neg_words] and a
    second-person token. *)
Theorem heuristic_model_rules db text :
  let tokens := tokenize db text in
  let neg := 0 <? count_in neg_words (u_lower db text) in
  let f := extract_rule_features db text (heuristic_analyze db text) in
  fs_blame f = has_second_person tokens
               && (Nat.ltb 0 (count_overlap tokens ABSOLUTES) || neg) /\
  fs_confrontational f = Nat.ltb 0 (count_overlap tokens DIRECTIVES) && neg /\
  fs_negative_interaction f = neg && has_second_person tokens.
Proof.
  cbv zeta. rewrite heuristic_analyze_eq. cbv zeta.
  cbn [extract_rule_features fs_blame fs_confrontational fs_negative_interaction
       sentiment sentiment_score].
  unfold blame_pattern, confrontational_pattern.
  pose proof (count_in_range neg_words (u_lower db text)) as Hr.
  revert Hr. generalize (count_in neg_words (u_lower db text)) as n. intros n Hr.
  pose proof (Z_range_forall (fun n =>
    let s := py_round_nd (heuristic_sentiment_score n) 3 in
    Bool.eqb (Qltb (lit 6 10) s) (0 <? n) && Bool.eqb (Qltb (lit 55 100) s) (0 <? n))
    0 16 ltac:(vm_compute; reflexivity) n ltac:(cbn in Hr; lia)) as H.
  cbv beta zeta in H. apply andb_true_iff in H as [H1 H2].
  apply Bool.eqb_prop in H1, H2. rewrite H1, H2.
  split; [reflexivity | split; [reflexivity |]].
  destruct (0 <? n); reflexivity.
Qed.

Lemma not_blank_guard db text :
  negb (forallb (u_isspace db) text) = true ->
  is_empty text || is_empty (py_strip db text) = false.
Proof.
  intros Hne. apply orb_false_iff. split.
  - destruct text; [discriminate Hne | reflexivity].
  - unfold py_strip. destruct (lstrip (u_isspace db) text) as [| c s] eqn:E.
    + apply lstrip_nil_all in E. rewrite E in Hne. discriminate Hne.
    + apply lstrip_cons_head in E. cbn [rev].
      pose proof (lstrip_snoc _ (rev s) c E) as H.
      destruct (lstrip _ (rev s ++ [c])) as [| a l]; [contradiction |].
      cbn [rev is_empty]. destruct (rev l ++ [a]) eqn:E3; [| reflexivity].
      apply app_eq_nil in E3 as [_ E3]. discriminate E3.
Qed.

(** analyze_message: an empty or all-whitespace text gets the neutral
    signal with every score 0.0, whether or not the transformers models
    are available, without calling them. *)
Theorem analyze_message_blank db env text :
  forallb (u_isspace db) text = true -> analyze_message db env text = zero_signal.
Proof.
  intros H. unfold analyze_message, py_strip. rewrite (lstrip_all _ _ H).
  cbn [rev lstrip is_empty]. rewrite orb_true_r. reflexivity.
Qed.

(** analyze_message: when the transformers models are unavailable, or one
    of the pipelines raises or returns an empty list, a non-blank text gets
    the heuristic analysis. *)
Theorem analyze_message_fallback db env text :
  negb (forallb (u_isspace db) text) = true ->
  (MODEL_AVAILABLE env = false \/ exists e, transformers_analyze env text = inl e) ->
  analyze_message db env text = heuristic_analyze db text.
Proof.
  intros Hne Hfb. unfold analyze_message.
  rewrite (not_blank_guard db text Hne).
  destruct Hfb as [-> | (e & He)]; [reflexivity |].
  destruct (MODEL_AVAILABLE env); [| reflexivity]. unfold try_except. rewrite He. reflexivity.
Qed.

(* ------------------------------------------------------------------ *)
(** * Helpers on feature orderings and tokens *)
Lemma implb_refl b : implb b b = true.
Proof. destruct b; reflexivity. Qed.

Lemma implb_andb_mono a b c d :
  implb a c = true -> implb b d = true -> implb (a && b) (c && d) = true.
Proof. destruct a, b, c, d; cbn; congruence. Qed.

Lemma implb_orb_mono a b c d :
  implb a c = true -> implb b d = true -> implb (a || b) (c || d) = true.
Proof. destruct a, b, c, d; cbn; congruence. Qed.

Create HintDb implb_mono.

#[local] Hint Resolve implb_refl implb_andb_mono implb_orb_mono : implb_mono.

Lemma features_leb_intro f g :
  implb (fs_negative_tone f) (fs_negative_tone g) = true ->
  implb (fs_norm_violation f) (fs_norm_violation g) = true ->
  implb (fs_negative_interaction f) (fs_negative_interaction g) = true ->
  implb (fs_rejection f) (fs_rejection g) = true ->
  implb (fs_blame f) (fs_blame g) = true ->
  implb (fs_confrontational f) (fs_confrontational g) = true ->
  implb (fs_toxic f) (fs_toxic g) = true ->
  features_leb f g = true.
Proof. intros; unfold features_leb; repeat (apply andb_true_intro; split); assumption. Qed.

Lemma count_overlap_incl t1 t2 vocab :
  incl t1 t2 -> implb (Nat.ltb 0 (count_overlap t1 vocab)) (Nat.ltb 0 (count_overlap t2 vocab)) = true.
Proof.
  intros H. destruct (Nat.ltb 0 (count_overlap t1 vocab)) eqn:E; [cbn | reflexivity].
  apply count_overlap_pos in E as (t & Ht & Hv). apply count_overlap_pos. exists t. auto.
Qed.

Lemma mem_incl w t1 t2 : incl t1 t2 -> implb (mem w t1) (mem w t2) = true.
Proof.
  intros H. destruct (mem w t1) eqn:E; [cbn | reflexivity].
  apply mem_In in E. apply mem_In, H, E.
Qed.

Lemma extract_incl db t1 t2 mo :
  incl (tokenize db t1) (tokenize db t2) ->
  features_leb (extract_rule_features db t1 mo) (extract_rule_features db t2 mo) = true.
Proof.
  intros H. pose proof (count_overlap_incl _ _ SECOND_PERSON H).
  pose proof (count_overlap_incl _ _ ABSOLUTES H).
  pose proof (count_overlap_incl _ _ DIRECTIVES H).
  pose proof (count_overlap_incl _ _ NEGATIONS H).
  pose proof (count_overlap_incl _ _ REJECTION_VERBS H).
  pose proof (count_overlap_incl _ _ NEGATIVE_EVALUATIONS H).
  pose proof (count_overlap_incl _ _ PROFANITY H).
  pose proof (mem_incl (enc "dont") _ _ H). pose proof (mem_incl (enc "like") _ _ H).
  apply features_leb_intro; cbn [extract_rule_features fs_negative_tone fs_norm_violation
    fs_negative_interaction fs_rejection fs_blame fs_confrontational fs_toxic];
  unfold negative_tone_pattern, norm_violation, has_second_person, rejection_pattern,
    blame_pattern, confrontational_pattern; auto with implb_mono.
Qed.

Lemma triggered_leb f g : features_leb f g = true -> incl (triggered f) (triggered g).
Proof.
  assert (Htab : forallb (fun f => forallb (fun g =>
            implb (features_leb f g) (incl_strs (triggered f) (triggered g))) all_features)
            all_features = true) by (vm_compute; reflexivity).
  intros H k Hk. rewrite forallb_forall in Htab.
  specialize (Htab f (all_features_complete f)). rewrite forallb_forall in Htab.
  specialize (Htab g (all_features_complete g)). rewrite H in Htab. cbn [implb] in Htab.
  unfold incl_strs in Htab. rewrite forallb_forall in Htab.
  apply Htab, existsb_exists in Hk as (y & Hy & E). apply String.eqb_eq in E. subst. exact Hy.
Qed.

Lemma runs_app_sep p cur x c y :
  p c = false -> runs p cur (x ++ c :: y) = runs p cur x ++ runs p [] y.
Proof.
  intros Hc. revert cur. induction x as [| d x IH]; intros cur; cbn.
  - rewrite Hc. destruct cur; reflexivity.
  - destruct (p d); [apply IH |]. destruct cur; [apply IH | cbn; f_equal; apply IH].
Qed.

Lemma forallb_impl (p q : Z -> bool) s :
  (forall c, p c = true -> q c = true) -> forallb p s = true -> forallb q s = true.
Proof.
  intros Hpq. induction s as [| c s IH]; cbn; [reflexivity |].
  rewrite !andb_true_iff. intros [H1 H2]. split; [apply Hpq, H1 | apply IH, H2].
Qed.

Lemma caps_test_no_caps db text : count_if (u_isupper db) text = 0 -> caps_test db text = false.
Proof.
  intros H. unfold caps_test. rewrite H. destruct text as [| c s]; [reflexivity |].
  apply Qltb_false. apply fl_nonneg, Qmult_le_0_compat.
  - apply fl_nonneg. unfold Qle; cbn. lia.
  - vm_compute. discriminate.
Qed.

(* ------------------------------------------------------------------ *)
(** * Extensions: rules.py and analyze_text *)
(** extract_rule_features / calculate_conflict_score: for a fixed text, a
    model output with a sentiment score and a toxicity at least as high,
    and a sentiment that is "negative" whenever the first one is, never
    gives a lower rule score. *)
Theorem rule_score_monotone_in_model db text mo mo' :
  (sentiment_score mo <= sentiment_score mo')%Q ->
  (toxicity mo <= toxicity mo')%Q ->
  (sentiment mo = "negative"%string -> sentiment mo' = "negative"%string) ->
  (calculate_conflict_score (extract_rule_features db text mo)
   <= calculate_conflict_score (extract_rule_features db text mo'))%Q.
Proof.
  intros Hs Ht Hn. apply calculate_monotone.
  assert (Hq : forall c, implb (Qltb c (sentiment_score mo)) (Qltb c (sentiment_score mo'))
                         = true).
  { intros c. destruct (Qltb c (sentiment_score mo)) eqn:E; [| reflexivity].
    cbn. apply (Qltb_mono_r _ _ _ Hs E). }
  assert (Hx : forall c, implb (Qltb c (toxicity mo)) (Qltb c (toxicity mo')) = true).
  { intros c. destruct (Qltb c (toxicity mo)) eqn:E; [| reflexivity].
    cbn. apply (Qltb_mono_r _ _ _ Ht E). }
  assert (Hn' : implb (String.eqb (sentiment mo) "negative") (String.eqb (sentiment mo') "negative")
                = true).
  { destruct (String.eqb (sentiment mo) "negative") eqn:E; [| reflexivity].
    apply String.eqb_eq in E. cbn. apply String.eqb_eq, Hn, E. }
  apply features_leb_intro; cbn [extract_rule_features fs_negative_tone fs_norm_violation
    fs_negative_interaction fs_rejection fs_blame fs_confrontational fs_toxic];
  unfold blame_pattern, confrontational_pattern; auto with implb_mono.
Qed.

(** extract_rule_features / apply_rules: when lower-casing does not merge
    text across a space and the space is not a word character, the text
    [a + " " + b] triggers every rule that [a] or [b] triggers, and its rule
    score is at least theirs. *)
Theorem appending_text_keeps_rules db
    (Hsp : u_isword db 32 = false)
    (Hlow : forall a b, u_lower db (a ++ 32 :: b) = u_lower db a ++ 32 :: u_lower db b)
    a b mo :
  let f := extract_rule_features db (a ++ 32 :: b) mo in
  incl (ro_triggered_rules (apply_rules db a mo)) (ro_triggered_rules (apply_rules db (a ++ 32 :: b) mo)) /\
  incl (ro_triggered_rules (apply_rules db b mo)) (ro_triggered_rules (apply_rules db (a ++ 32 :: b) mo)) /\
  (calculate_conflict_score (extract_rule_features db a mo) <= calculate_conflict_score f)%Q /\
  (calculate_conflict_score (extract_rule_features db b mo) <= calculate_conflict_score f)%Q.
Proof.
  cbv zeta.
  assert (Ht : tokenize db (a ++ 32 :: b) = tokenize db a ++ tokenize db b).
  { unfold tokenize. rewrite Hlow. apply runs_app_sep. exact Hsp. }
  assert (Ha : features_leb (extract_rule_features db a mo)
                 (extract_rule_features db (a ++ 32 :: b) mo) = true)
    by (apply extract_incl; rewrite Ht; apply incl_appl, incl_refl).
  assert (Hb : features_leb (extract_rule_features db b mo)
                 (extract_rule_features db (a ++ 32 :: b) mo) = true)
    by (apply extract_incl; rewrite Ht; apply incl_appr, incl_refl).
  destruct (apply_rules_fields db a mo) as (_ & _ & _ & ->).
  destruct (apply_rules_fields db b mo) as (_ & _ & _ & ->).
  destruct (apply_rules_fields db (a ++ 32 :: b) mo) as (_ & _ & _ & ->).
  split; [apply triggered_leb, Ha | split; [apply triggered_leb, Hb |]].
  split; apply calculate_monotone; assumption.
Qed.

(** apply_rules: the rule layer ignores case; for a database whose
    [str.lower] is idempotent, [apply_rules(text.lower(), m)] equals
    [apply_rules(text, m)]. *)
Theorem apply_rules_case_insensitive db
    (Hidem : forall s, u_lower db (u_lower db s) = u_lower db s) text mo :
  apply_rules db (u_lower db text) mo = apply_rules db text mo.
Proof.
  assert (Ht : tokenize db (u_lower db text) = tokenize db text)
    by (unfold tokenize; rewrite Hidem; reflexivity).
  unfold apply_rules, extract_rule_features. rewrite Ht. reflexivity.
Qed.

Lemma strs_eqb_eq xs ys : strs_eqb xs ys = true <-> xs = ys.
Proof.
  revert ys. induction xs as [| x xs IH]; intros [| y ys]; cbn;
    try (split; [discriminate | congruence]); [split; reflexivity |].
  rewrite andb_true_iff, String.eqb_eq, IH.
  split; [intros [-> ->]; reflexivity | intros E; injection E; auto].
Qed.

(** apply_rules: the risk level is LOW exactly when no rule fired, or only
    negative_interaction, or only confrontational; every other combination
    of rules is MEDIUM or HIGH. *)
Theorem low_risk_rule_sets db text mo :
  ro_risk_level (apply_rules db text mo) = "LOW"%string <->
  In (ro_triggered_rules (apply_rules db text mo)) LOW_RULE_SETS.
Proof.
  destruct (apply_rules_fields db text mo) as (_ & -> & _ & ->).
  pose proof (all_features_forall (fun f =>
    Bool.eqb (String.eqb (fst (classify (calculate_conflict_score f))) "LOW")
             (existsb (strs_eqb (triggered f)) LOW_RULE_SETS))
    ltac:(vm_compute; reflexivity) (extract_rule_features db text mo)) as H.
  cbv beta in H. apply Bool.eqb_prop in H.
  rewrite <- String.eqb_eq, H, existsb_exists.
  split.
  - intros (l & Hl & E). apply strs_eqb_eq in E. rewrite E. exact Hl.
  - intros Hl. exists (triggered (extract_rule_features db text mo)).
    split; [exact Hl | apply strs_eqb_eq; reflexivity].
Qed.

(** apply_rules: a text with a profanity token is HIGH risk whatever the
    model output. *)
Theorem profanity_is_high_risk db text mo :
  (exists t, In t (tokenize db text) /\ In t PROFANITY) ->
  ro_risk_level (apply_rules db text mo) = "HIGH"%string.
Proof.
  intros Hp. destruct (apply_rules_fields db text mo) as (_ & -> & _).
  assert (Hn : fs_norm_violation (extract_rule_features db text mo) = true)
    by (apply count_overlap_pos, Hp).
  pose proof (all_features_forall (fun f =>
    implb (fs_norm_violation f)
          (String.eqb (fst (classify (calculate_conflict_score f))) "HIGH"))
    ltac:(vm_compute; reflexivity) (extract_rule_features db text mo)) as H.
  cbv beta in H. rewrite Hn in H. apply String.eqb_eq, H.
Qed.

Lemma severity_get_bins f :
  severity_get (fst (classify (calculate_conflict_score f))) =
  (if rule_int_score f <? 30 then "low"%string
   else if rule_int_score f <? 60 then "medium"%string else "high"%string).
Proof.
  pose proof (all_features_forall (fun f =>
    String.eqb (severity_get (fst (classify (calculate_conflict_score f))))
      (if rule_int_score f <? 30 then "low"%string
       else if rule_int_score f <? 60 then "medium"%string else "high"%string))
    ltac:(vm_compute; reflexivity) f) as H.
  apply String.eqb_eq, H.
Qed.

(** analyze_text: before the heuristics the integer score and the severity
    agree: the severity is "low" below 30, "medium" from 30 to 59 and
    "high" from 60 on, for the integer score [int(round(score * 100))]. *)
Theorem severity_matches_rule_int_score db model_analyze text :
  exists r, analyze_text db model_analyze text = inr r /\
    let base := rule_int_score (extract_rule_features db text (model r)) in
    severity r = (if base <? 30 then "low"%string
                  else if base <? 60 then "medium"%string else "high"%string).
Proof.
  eexists; split; [apply analyze_text_eq |]. cbv zeta.
  destruct (analysis_of_fields db text (model_used (model_analyze text))
              (error_used (model_analyze text))) as (_ & -> & _ & _ & _ & -> & _).
  apply severity_get_bins.
Qed.

(** analyze_text: the conflict score is always a multiple of 5. *)
Theorem conflict_score_multiple_of_5 db model_analyze text :
  exists r, analyze_text db model_analyze text = inr r /\ conflict_score r mod 5 = 0.
Proof.
  eexists; split; [apply analyze_text_eq |].
  destruct (analysis_of_fields db text (model_used (model_analyze text))
              (error_used (model_analyze text))) as (-> & _).
  generalize (extract_rule_features db text (model_used (model_analyze text))) as f. intros f.
  pose proof (all_features_forall (fun f => rule_int_score f mod 5 =? 0)
    ltac:(vm_compute; reflexivity) f) as H. apply Z.eqb_eq in H.
  assert (M : forall x, x mod 5 = 0 -> Z.min 100 x mod 5 = 0).
  { intros x Hx. destruct (Z.min_spec 100 x) as [[_ ->] | [_ ->]]; [reflexivity | exact Hx]. }
  assert (A : forall x k, x mod 5 = 0 -> (x + 5 * k) mod 5 = 0).
  { intros x k Hx. rewrite Z.mul_comm, Z.mod_add by lia. exact Hx. }
  unfold heuristic_score.
  destruct (caps_test db text), (3 <=? count_bang text);
    repeat first [ apply M | apply (A _ 1) | apply (A _ 2) | exact H ].
Qed.

(** analyze_text over model.py: an empty or all-whitespace text gives score
    0, severity "low", the single "no negative indicators" flag, the
    suggestion "No action needed", word count 0, no rule, the all-zero
    neutral signal and no model error (for a database where whitespace is
    uncased, lower-cases to non-word characters, and '!' is not
    whitespace). *)
Theorem analyze_blank_text db env
    (Hup : forall c, u_isspace db c = true -> u_isupper db c = false)
    (Hlw : forall s, forallb (u_isspace db) s = true ->
                     forallb (fun c => negb (u_isword db c)) (u_lower db s) = true)
    (Hbang : u_isspace db 33 = false)
    text (Hblank : forallb (u_isspace db) text = true) :
  app_analyze_text db env text = inr blank_result.
Proof.
  unfold app_analyze_text. rewrite analyze_text_eq. cbn [model_used error_used ret].
  rewrite (analyze_message_blank db env text Hblank).
  assert (Ht : tokenize db text = []) by (apply runs_none, Hlw, Hblank).
  assert (Hf : extract_rule_features db text zero_signal = no_features)
    by (unfold extract_rule_features; rewrite Ht; vm_compute; reflexivity).
  assert (Hc : caps_test db text = false).
  { apply caps_test_no_caps, count_if_none.
    apply (forallb_impl (u_isspace db)); [| exact Hblank].
    intros c Hs. rewrite (Hup c Hs). reflexivity. }
  assert (Hb : count_bang text = 0).
  { apply count_if_none. apply (forallb_impl (u_isspace db)); [| exact Hblank].
    intros c Hs. destruct (Z.eqb_spec 33 c); [subst; congruence | reflexivity]. }
  assert (Hw : runs (fun c => negb (u_isspace db c)) [] text = []).
  { apply runs_none. apply (forallb_impl (u_isspace db)); [| exact Hblank].
    intros c Hs. rewrite Hs. reflexivity. }
  unfold analysis_of, apply_rules. rewrite Hf, Hc, Hb, Hw.
  vm_compute. reflexivity.
Qed.

(* ------------------------------------------------------------------ *)
(** * Helpers on the Streamlit session *)

Lemma severity_get_in r : In (severity_get r) SEVERITIES.
Proof.
  unfold severity_get, severity_map. cbn [find fst].
  destruct (String.eqb "LOW" r); [left; reflexivity |].
  destruct (String.eqb "MEDIUM" r); [right; left; reflexivity |].
  destruct (String.eqb "HIGH" r); [right; right; left; reflexivity | left; reflexivity].
Qed.

Lemma analyze_text_severity db model_analyze text :
  exists r, analyze_text db model_analyze text = inr r /\ In (severity r) SEVERITIES.
Proof.
  eexists; split; [apply analyze_text_eq |].
  destruct (analysis_of_fields db text (model_used (model_analyze text))
              (error_used (model_analyze text))) as (_ & -> & _).
  apply severity_get_in.
Qed.

Lemma dict_get_in {A} (d : list (string * A)) k :
  In k (map fst d) -> exists v, dict_get d k = inr v /\ In (k, v) d.
Proof.
  intros Hk. unfold dict_get.
  destruct (find (fun kv => String.eqb (fst kv) k) d) as [[k' v] |] eqn:E.
  - apply find_some in E as [Hin Heq]. cbn in Heq. apply String.eqb_eq in Heq. subst k'.
    exists v. split; [reflexivity | exact Hin].
  - exfalso. apply in_map_iff in Hk as ([k' v] & Hk' & Hin). cbn in Hk'. subst k'.
    apply (find_none _ _ E) in Hin. cbn in Hin. rewrite String.eqb_refl in Hin. discriminate.
Qed.

Lemma dict_set_keys {A} (d : list (string * A)) k v : map fst (dict_set d k v) = map fst d.
Proof.
  unfold dict_set. rewrite map_map. apply map_ext. intros [k' v'].
  cbn. destruct (String.eqb_spec k' k); [subst; reflexivity | reflexivity].
Qed.

Lemma dict_set_in {A} (d : list (string * A)) k v u w :
  In (u, w) (dict_set d k v) -> (u = k /\ w = v) \/ In (u, w) d.
Proof.
  unfold dict_set. intros H. apply in_map_iff in H as ([k' v'] & E & Hin). cbn in E.
  destruct (String.eqb k' k); injection E as <- <-; [left; split; reflexivity | right; exact Hin].
Qed.

Lemma index_last_ok {A} (xs : list A) : xs <> [] -> exists x, index_last xs = inr x.
Proof.
  intros H. unfold index_last. destruct (rev xs) as [| x r] eqn:E.
  - exfalso. apply H. rewrite <- (rev_involutive xs), E. reflexivity.
  - exists x. reflexivity.
Qed.

Lemma user_option_key u : In u user_options -> u <> ""%string -> In u (map fst DEMO_MESSAGES).
Proof. intros [<- | H] Hne; [contradiction | exact H]. Qed.

Lemma init_session_ok : session_ok init_session.
Proof.
  split; [reflexivity | split].
  - intros u conv H. cbn in H.
    destruct H as [E | [E | [E | []]]]; injection E as <- <-;
      (split; [discriminate |]); apply Forall_forall; intros m Hm;
      repeat (destruct Hm as [<- | Hm]; [cbn; intuition; fail |]); destruct Hm.
  - intros u H. discriminate H.
Qed.

Section Runs.

Variable db : UnicodeDB.
Variable model_analyze : pystr -> PyM ModelSignal.

Lemma analysis_column_ok s :
  session_ok s ->
  exists s' a, analysis_column (analyze_text db model_analyze) s = inr (s', a) /\ session_ok s' /\
    messages s' = messages s /\ current_user s' = current_user s.
Proof.
  intros Hs. unfold analysis_column.
  destruct (current_user s) as [u |] eqn:Eu; [destruct (last_analysis s) as [a |] |].
  - exists s, (Some a). auto.
  - destruct Hs as (Hk & Hc & Hu).
    destruct (dict_get_in (messages s) u) as (conv & Eg & Hin); [rewrite Hk; apply Hu, Eu |].
    destruct (Hc _ _ Hin) as [Hne _].
    destruct (index_last_ok conv Hne) as (last & El).
    rewrite Eg. cbn [bind]. rewrite El. cbn [bind]. rewrite analyze_text_eq.
    cbn [bind ret].
    eexists; eexists; split; [reflexivity |].
    split; [| split; reflexivity].
    split; [exact Hk | split; [exact Hc |]].
    intros u' E. apply Hu. rewrite Eu. exact E.
  - exists s, None. auto.
Qed.

Lemma run_ok s i :
  session_ok s -> In (in_user i) user_options ->
  exists s', run (analyze_text db model_analyze) s i = inr s' /\ session_ok s'.
Proof.
  intros Hs Hi. unfold run, chat_column.
  destruct (String.eqb (in_user i) "") eqn:Eempty.
  - cbn [ret bind fst snd].
    destruct (analysis_column_ok s Hs) as (s' & a & -> & Hs' & Hm & Hcu).
    cbn [bind fst snd].
    destruct (current_user s') as [u |] eqn:Eu; [destruct a |]; cbn [bind ret];
      try (eexists; split; [reflexivity | exact Hs']).
    destruct Hs' as (Hk & Hc & Hu).
    destruct (dict_get_in (messages s') u) as (conv & -> & _); [rewrite Hk; apply Hu, Eu |].
    eexists; split; [reflexivity | split; [exact Hk | split; assumption]].
  - apply String.eqb_neq in Eempty.
    pose proof (user_option_key _ Hi Eempty) as Hkey.
    destruct Hs as (Hk & Hc & Hu).
    destruct (dict_get_in (messages s) (in_user i)) as (conv & Eg & Hin); [rewrite Hk; exact Hkey |].
    cbn [messages]. rewrite Eg. cbn [bind].
    destruct (in_send i && negb (is_empty (in_message i))).
    + destruct (analyze_text_severity db model_analyze (in_message i)) as (r & Er & Hsev).
      rewrite Er. cbn [bind ret fst snd].
      eexists; split; [reflexivity |].
      split; [cbn; rewrite dict_set_keys; exact Hk | split].
      * intros u w Hw. cbn in Hw. apply dict_set_in in Hw as [[-> ->] | Hw].
        -- split; [intros E; apply app_eq_nil in E as [_ E]; discriminate E |].
           apply Forall_app. split; [apply (Hc _ _ Hin) | constructor; [exact Hsev | constructor]].
        -- apply (Hc _ _ Hw).
      * intros u Eu. cbn in Eu. injection Eu as <-. exact Hkey.
    + cbn [ret bind fst snd].
      assert (Hs1 : session_ok {| messages := messages s; current_user := Some (in_user i);
                                  last_analysis := last_analysis s |}).
      { split; [exact Hk | split; [exact Hc |]]. intros u Eu. injection Eu as <-. exact Hkey. }
      destruct (analysis_column_ok _ Hs1) as (s' & a & -> & Hs' & Hm & Hcu).
      cbn [bind fst snd].
      destruct (current_user s') as [u |] eqn:Eu; [destruct a |]; cbn [bind ret];
        try (eexists; split; [reflexivity | exact Hs']).
      destruct Hs' as (Hk' & Hc' & Hu').
      destruct (dict_get_in (messages s') u) as (conv' & -> & _); [rewrite Hk'; apply Hu', Eu |].
      eexists; split; [reflexivity | split; [exact Hk' | split; assumption]].
Qed.

Lemma reachable_ok s : reachable (analyze_text db model_analyze) s -> session_ok s.
Proof.
  induction 1 as [| s i s' _ IH Hi Hr].
  - apply init_session_ok.
  - destruct (run_ok s i IH Hi) as (s'' & E & Hok). rewrite Hr in E.
    injection E as ->. exact Hok.
Qed.

End Runs.

Lemma severity_counts conv :
  Forall (fun m => In (m_severity m) SEVERITIES) conv ->
  (severity_count "low" conv + severity_count "medium" conv + severity_count "high" conv
   = List.length conv)%nat.
Proof.
  unfold severity_count. induction 1 as [| m conv Hm _ IH]; [reflexivity |].
  cbn [filter List.length].
  destruct Hm as [E | [E | [E | []]]]; rewrite <- E; cbn; lia.
Qed.

(* ------------------------------------------------------------------ *)
(** * Extensions: the Streamlit page of app.py *)
(** app.py page: from the initial session, as long as the selected user is
    one of the selectbox options, no run of the script raises (no KeyError
    on [messages[user]], no IndexError on [messages[current_user][-1]]). *)
Theorem ui_run_never_raises db model_analyze s i :
  reachable (analyze_text db model_analyze) s -> In (in_user i) user_options ->
  exists s', run (analyze_text db model_analyze) s i = inr s'.
Proof.
  intros Hr Hi. destruct (run_ok db model_analyze s i (reachable_ok db model_analyze s Hr) Hi)
    as (s' & E & _).
  exists s'. exact E.
Qed.

(** app.py page: in every reachable session the conversations are those of
    Alice, Bob and Manager, none is empty, and the "Conversation Health"
    counts of low, medium and high messages add up to the number of
    messages. *)
Theorem ui_conversations_invariant db model_analyze s :
  reachable (analyze_text db model_analyze) s ->
  map fst (messages s) = ["Alice"; "Bob"; "Manager"]%string /\
  forall u conv, In (u, conv) (messages s) ->
    conv <> [] /\
    (severity_count "low" conv + severity_count "medium" conv + severity_count "high" conv
     = List.length conv)%nat.
Proof.
  intros Hr. destruct (reachable_ok db model_analyze s Hr) as (Hk & Hc & _).
  split; [exact Hk |]. intros u conv Hin. destruct (Hc _ _ Hin) as [Hne Hf].
  split; [exact Hne | apply severity_counts, Hf].
Qed.

Lemma heuristic_score_range db text b :
  0 <= b <= 100 -> b <= heuristic_score db text b <= b + 15.
Proof.
  unfold heuristic_score. intros Hb.
  destruct (caps_test db text), (3 <=? count_bang text); lia.
Qed.

Lemma analyze_text_score_bounded db model_analyze text :
  exists r, analyze_text db model_analyze text = inr r /\ 0 <= conflict_score r <= 100.
Proof.
  eexists; split; [apply analyze_text_eq |].
  destruct (analysis_of_fields db text (model_used (model_analyze text))
              (error_used (model_analyze text))) as (-> & _).
  apply heuristic_score_bounded, rule_int_score_bounded.
Qed.

Lemma progress_value_unit n : 0 <= n <= 100 -> (0 <= progress_value n <= 1)%Q.
Proof.
  intros Hn.
  pose proof (Z_range_forall
                (fun n => Qle_bool 0 (progress_value n) && Qle_bool (progress_value n) 1)
                0 101 ltac:(vm_compute; reflexivity) n ltac:(lia)) as H.
  apply andb_true_iff in H as [H1 H2].
  apply Qle_bool_iff in H1, H2. split; assumption.
Qed.

(** app.py analysis panel, line 240: the value [score / 100] given to
    [st.progress] lies in [0.0, 1.0], the range the progress bar accepts,
    for every text and every outcome of the model call. *)
Theorem progress_value_in_unit db model_analyze text :
  exists r, analyze_text db model_analyze text = inr r /\
    (0 <= progress_value (conflict_score r) <= 1)%Q.
Proof.
  destruct (analyze_text_score_bounded db model_analyze text) as (r & E & Hb).
  exists r. split; [exact E | apply progress_value_unit, Hb].
Qed.

(** app.py analysis panel, lines 240-256: the banner never contradicts the
    severity by two levels: a "low" message scores below 45 and never gets
    the HIGH RISK banner, a "high" message scores at least 60 and never gets
    the LOW RISK banner. *)
Theorem banner_consistent_with_severity db model_analyze text :
  exists r, analyze_text db model_analyze text = inr r /\
    (severity r = "low"%string -> conflict_score r < 45 /\
       risk_text (conflict_score r) <> " HIGH RISK: Significant conflict escalation detected"%string) /\
    (severity r = "high"%string -> 60 <= conflict_score r /\
       risk_text (conflict_score r) <> " LOW RISK: Conversation is constructive and positive"%string).
Proof.
  eexists; split; [apply analyze_text_eq |].
  destruct (analysis_of_fields db text (model_used (model_analyze text))
              (error_used (model_analyze text))) as (-> & -> & _).
  rewrite severity_get_bins.
  set (f := extract_rule_features _ _ _).
  pose proof (rule_int_score_bounded f) as Hb.
  pose proof (heuristic_score_range db text _ Hb) as Hh.
  set (sc := heuristic_score _ _ _) in *.
  unfold risk_text.
  split; intros Hs.
  - destruct (Z.ltb_spec (rule_int_score f) 30); [| destruct (rule_int_score f <? 60); discriminate Hs].
    split; [lia |].
    destruct (Z.ltb_spec sc 40); [discriminate |].
    destruct (Z.ltb_spec sc 70); [discriminate | lia].
  - destruct (Z.ltb_spec (rule_int_score f) 30); [discriminate Hs |].
    destruct (Z.ltb_spec (rule_int_score f) 60); [discriminate Hs |].
    split; [lia |].
    destruct (Z.ltb_spec sc 40); [lia |].
    destruct (sc <? 70); discriminate.
Qed.

Lemma dict_get_set_same {A} (d : list (string * A)) k v x :
  dict_get d k = inr x -> dict_get (dict_set d k v) k = inr v.
Proof.
  unfold dict_get, dict_set. induction d as [| [k' v'] d IH]; cbn; [discriminate |].
  destruct (String.eqb_spec k' k) as [-> | Hne]; cbn.
  - rewrite String.eqb_refl. reflexivity.
  - apply String.eqb_neq in Hne. rewrite Hne. exact IH.
Qed.

Lemma dict_get_set_other {A} (d : list (string * A)) k v u :
  u <> k -> dict_get (dict_set d k v) u = dict_get d u.
Proof.
  intros Hu. unfold dict_get, dict_set. induction d as [| [k' v'] d IH]; cbn; [reflexivity |].
  destruct (String.eqb_spec k' k) as [-> | Hne]; cbn.
  - destruct (String.eqb_spec k u) as [-> | _]; [contradiction |]. exact IH.
  - destruct (String.eqb k' u); [reflexivity | exact IH].
Qed.

Lemma index_last_snoc {A} (xs : list A) x :
  index_last xs = inr x -> exists pre, xs = pre ++ [x].
Proof.
  unfold index_last. intros H. destruct (rev xs) as [| y r] eqn:E; [discriminate |].
  injection H as ->. exists (rev r).
  rewrite <- (rev_involutive xs), E. reflexivity.
Qed.

Lemma analysis_column_keeps analyze s s' a :
  analysis_column analyze s = inr (s', a) ->
  messages s' = messages s /\ current_user s' = current_user s /\
  (forall a0, last_analysis s = Some a0 -> last_analysis s' = Some a0).
Proof.
  unfold analysis_column.
  destruct (current_user s) as [u |] eqn:Eu; [destruct (last_analysis s) as [a1 |] eqn:El |].
  - intros E. injection E as <- <-. rewrite Eu, El. split; [reflexivity | split; [reflexivity |]].
    auto.
  - destruct (dict_get (messages s) u); [discriminate |]. cbn [bind].
    destruct (index_last _); [discriminate |]. cbn [bind].
    destruct (analyze _); [discriminate |]. cbn [bind ret].
    intros E. injection E as <- <-. cbn.
    split; [reflexivity | split; [congruence | intros b E2; discriminate E2]].
  - intros E. injection E as <- <-. auto.
Qed.

Lemma run_tail (s0 s' : Session) (a : option AnalysisResult) :
  match current_user s0, a with
  | Some u, Some _ => conv <- dict_get (messages s0) u ;; ret s0
  | _, _ => ret s0
  end = inr s' -> s' = s0.
Proof.
  destruct (current_user s0), a; cbn [ret]; try (intros E; injection E as ->; reflexivity).
  destruct (dict_get _ _); cbn [bind ret]; [discriminate | intros E; injection E as ->; reflexivity].
Qed.

(** app.py chat column, lines 199-212: sending a non-empty message as a
    selected user appends it, with the severity computed by [analyze_text],
    to the end of that user's conversation; the other conversations and the
    set of users are unchanged, and the panel's [last_analysis] becomes this
    message's analysis. *)
Theorem ui_send_appends db model_analyze s i s' :
  in_user i <> ""%string -> in_send i = true -> in_message i <> [] ->
  run (analyze_text db model_analyze) s i = inr s' ->
  exists r conv,
    analyze_text db model_analyze (in_message i) = inr r /\
    dict_get (messages s) (in_user i) = inr conv /\
    dict_get (messages s') (in_user i) =
      inr (conv ++ [{| m_sender := in_user i; m_text := in_message i;
                       m_timestamp := in_time i; m_severity := severity r |}]) /\
    (forall u, u <> in_user i -> dict_get (messages s') u = dict_get (messages s) u) /\
    map fst (messages s') = map fst (messages s) /\
    current_user s' = Some (in_user i) /\ last_analysis s' = Some r.
Proof.
  intros Hu Hsend Hm. unfold run, chat_column.
  apply String.eqb_neq in Hu. rewrite Hu. cbn [messages].
  destruct (dict_get (messages s) (in_user i)) as [e | conv] eqn:Eg; [discriminate |].
  cbn [bind]. rewrite Hsend.
  destruct (in_message i) as [| c t] eqn:Em; [contradiction |]. cbn [andb negb is_empty].
  rewrite <- Em.
  destruct (analyze_text db model_analyze (in_message i)) as [e | r] eqn:Er;
    [cbn [bind]; discriminate |].
  cbn [bind ret fst snd]. intros E. injection E as <-.
  exists r, conv. split; [reflexivity | split; [reflexivity |]]. cbn [messages current_user last_analysis].
  split; [apply (dict_get_set_same _ _ _ _ Eg) |].
  split; [intros u Hne; apply dict_get_set_other, Hne |].
  split; [apply dict_set_keys | split; reflexivity].
Qed.

(** app.py page, lines 154-230: a run that sends nothing (no user
    selected, Send not pressed, or an empty message) leaves every
    conversation unchanged, and an analysis already stored in
    [last_analysis] stays the one shown, even after switching to another
    user; selecting a user makes it the current one. *)
Theorem ui_without_send_keeps_state analyze s i s' :
  (in_user i = ""%string \/ in_send i = false \/ in_message i = []) ->
  run analyze s i = inr s' ->
  messages s' = messages s /\
  current_user s' = (if String.eqb (in_user i) "" then current_user s else Some (in_user i)) /\
  (forall a, last_analysis s = Some a -> last_analysis s' = Some a).
Proof.
  intros Hno. unfold run, chat_column.
  assert (Hgo : forall s0, messages s0 = messages s -> last_analysis s0 = last_analysis s ->
            (r' <- analysis_column analyze s0 ;;
             match current_user (fst r'), snd r' with
             | Some u, Some _ => conv <- dict_get (messages (fst r')) u ;; ret (fst r')
             | _, _ => ret (fst r')
             end) = inr s' ->
            messages s' = messages s /\ current_user s' = current_user s0 /\
            (forall a, last_analysis s = Some a -> last_analysis s' = Some a)).
  { intros s0 Hm0 Hl0.
    destruct (analysis_column analyze s0) as [e | [s1 a1]] eqn:Ea; [discriminate |].
    cbn [bind fst snd]. intros Ht. apply run_tail in Ht. subst s1.
    destruct (analysis_column_keeps _ _ _ _ Ea) as (Hm1 & Hc1 & Hl1).
    split; [congruence | split; [exact Hc1 |]].
    intros a Ha. rewrite <- Hl0 in Ha. apply (Hl1 _ Ha). }
  destruct (String.eqb (in_user i) "") eqn:Eu.
  - cbn [ret bind fst snd]. apply Hgo; reflexivity.
  - destruct (dict_get _ (in_user i)) as [e | conv]; [discriminate |]. cbn [bind].
    assert (Hs : in_send i && negb (is_empty (in_message i)) = false).
    { destruct Hno as [E | [E | E]]; [rewrite E in Eu; discriminate | rewrite E; reflexivity |
                                      rewrite E; apply andb_false_r]. }
    rewrite Hs. cbn [ret bind fst snd]. apply Hgo; reflexivity.
Qed.

(** app.py analysis panel, lines 224-228: when no analysis is stored yet,
    selecting a user without sending analyzes the last message of that
    user's conversation and stores that analysis. *)
Theorem ui_first_analysis_is_last_message db model_analyze s i s' :
  last_analysis s = None -> in_user i <> ""%string ->
  (in_send i = false \/ in_message i = []) ->
  run (analyze_text db model_analyze) s i = inr s' ->
  exists pre last r,
    dict_get (messages s) (in_user i) = inr (pre ++ [last]) /\
    analyze_text db model_analyze (m_text last) = inr r /\
    last_analysis s' = Some r /\ messages s' = messages s.
Proof.
  intros Hl Hu Hno. unfold run, chat_column.
  apply String.eqb_neq in Hu. rewrite Hu. cbn [messages].
  destruct (dict_get (messages s) (in_user i)) as [e | conv] eqn:Eg; [discriminate |].
  cbn [bind].
  assert (Hs : in_send i && negb (is_empty (in_message i)) = false).
  { destruct Hno as [E | E]; rewrite E; [reflexivity | apply andb_false_r]. }
  rewrite Hs. cbn [ret bind fst snd]. unfold analysis_column at 1. cbn [current_user last_analysis].
  rewrite Hl. cbn [messages]. rewrite Eg. cbn [bind].
  destruct (index_last conv) as [e | last] eqn:Ei; [discriminate |]. cbn [bind].
  destruct (analyze_text db model_analyze (m_text last)) as [e | r] eqn:Er; [discriminate |].
  cbn [bind ret fst snd current_user messages]. rewrite Eg. cbn [bind ret].
  intros Ht. injection Ht as <-.
  destruct (index_last_snoc _ _ Ei) as (pre & ->).
  exists pre, last, r. repeat split; assumption || reflexivity.
Qed.

(** model.py [analyze_message], lines 83-105: when the pipelines load and
    both return at least one prediction on a non-blank text, the result is
    built from the first prediction of each: the sentiment is the lowered
    label of the sentiment prediction passed through [SENTIMENT_MAP] (a label
    outside the map is kept as is; a missing label counts as "neutral"), and
    the toxicity is 0 unless the lowered label of the toxicity prediction is
    "toxic". *)
Theorem analyze_message_pipelines db env text sent sents tox toxs :
  negb (forallb (u_isspace db) text) = true -> MODEL_AVAILABLE env = true ->
  sentiment_model env text = inr (sent :: sents) ->
  toxicity_model env text = inr (tox :: toxs) ->
  let r := analyze_message db env text in
  sentiment r = sentiment_map_get (label_lower env (match pred_label sent with
                                                   | Some l => l | None => "neutral"%string end)) /\
  (label_lower env (match pred_label tox with Some l => l | None => ""%string end)
     <> "toxic"%string -> toxicity r = 0%Q).
Proof.
  intros Hne Ha Hs Ht. unfold analyze_message.
  rewrite (not_blank_guard db text Hne), Ha.
  unfold try_except, transformers_analyze. rewrite Hs, Ht. cbn [bind index0 ret orb].
  cbn [sentiment toxicity]. split; [reflexivity |].
  intros Hl. apply String.eqb_neq in Hl. rewrite Hl. vm_compute. reflexivity.
Qed.

(* ------------------------------------------------------------------ *)
(** * The ASCII database satisfies the hypotheses of the theorems above *)
Lemma ascii_lower_idem s : u_lower ascii_db (u_lower ascii_db s) = u_lower ascii_db s.
Proof.
  cbn [u_lower ascii_db]. rewrite map_map. apply map_ext. intros c.
  unfold ascii_isupper. destruct ((65 <=? c) && (c <=? 90)) eqn:E.
  - apply andb_true_iff in E as [E1 E2]. apply Z.leb_le in E1, E2.
    replace ((65 <=? c + 32) && (c + 32 <=? 90)) with false; [reflexivity |].
    symmetry. apply andb_false_iff. right. apply Z.leb_gt. lia.
  - rewrite E. reflexivity.
Qed.

Lemma ascii_lower_app a b :
  u_lower ascii_db (a ++ 32 :: b) = u_lower ascii_db a ++ 32 :: u_lower ascii_db b.
Proof. cbn [u_lower ascii_db]. rewrite map_app. reflexivity. Qed.

Lemma ascii_space_not_upper c : u_isspace ascii_db c = true -> u_isupper ascii_db c = false.
Proof.
  cbn [u_isspace u_isupper ascii_db]. unfold ascii_isupper. intros H.
  apply orb_true_iff in H as [H | H]; apply andb_true_iff in H as [H1 H2];
    apply Z.leb_le in H1, H2; apply andb_false_iff; left; apply Z.leb_gt; lia.
Qed.

Lemma ascii_lower_blank s :
  forallb (u_isspace ascii_db) s = true ->
  forallb (fun c => negb (u_isword ascii_db c)) (u_lower ascii_db s) = true.
Proof.
  induction s as [| c s IH]; [reflexivity |].
  cbn [forallb]. intros H. apply andb_true_iff in H as [Hc Hs].
  change (u_lower ascii_db (c :: s)) with
    ((if ascii_isupper c then c + 32 else c) :: u_lower ascii_db s).
  cbn [forallb]. rewrite (IH Hs), andb_true_r.
  pose proof (ascii_space_not_upper c Hc) as Hu. cbn [u_isupper ascii_db] in Hu. rewrite Hu.
  cbn [u_isspace u_isword ascii_db] in *. unfold ascii_isupper, ascii_islower, ascii_isdigit in *.
  apply orb_true_iff in Hc as [Hc | Hc]; apply andb_true_iff in Hc as [H1 H2];
    apply Z.leb_le in H1, H2;
    repeat match goal with
    | |- context [?a <=? ?b] => destruct (Z.leb_spec a b); try lia
    | |- context [?a =? ?b] => destruct (Z.eqb_spec a b); try lia
    end; reflexivity.
Qed.

(* ------------------------------------------------------------------ *)
(** * Long texts, built symbolically *)

Lemma rep_0 x : rep x 0 = [].
Proof. reflexivity. Qed.

Lemma rep_succ x k : rep x (N.succ k) = x :: rep x k.
Proof. unfold rep. apply N.iter_succ. Qed.

Lemma rep_length x k : List.length (rep x k) = N.to_nat k.
Proof.
  induction k using N.peano_ind; [reflexivity |].
  rewrite rep_succ, N2Nat.inj_succ. cbn [List.length]. congruence.
Qed.

Lemma rep_snoc x k : rep x k ++ [x] = x :: rep x k.
Proof.
  induction k using N.peano_ind; [reflexivity |].
  rewrite rep_succ. cbn [app]. rewrite IHk. reflexivity.
Qed.

Lemma rev_rep x k : rev (rep x k) = rep x k.
Proof.
  induction k using N.peano_ind; [reflexivity |].
  rewrite rep_succ. cbn [rev]. rewrite IHk. apply rep_snoc.
Qed.

Lemma map_rep (f : Z -> Z) x k : map f (rep x k) = rep (f x) k.
Proof.
  induction k using N.peano_ind; [reflexivity |].
  rewrite !rep_succ. cbn [map]. congruence.
Qed.

Lemma filter_rep (p : Z -> bool) x k :
  filter p (rep x k) = if p x then rep x k else [].
Proof.
  induction k using N.peano_ind; [destruct (p x); reflexivity |].
  rewrite rep_succ. cbn [filter]. rewrite IHk.
  destruct (p x); reflexivity.
Qed.

Lemma count_if_rep_app (p : Z -> bool) x y k m :
  p x = true -> p y = false -> count_if p (rep x k ++ rep y m) = Z.of_N k.
Proof.
  intros Hx Hy. unfold count_if.
  rewrite filter_app, !filter_rep, Hx, Hy, app_nil_r, rep_length. apply N_nat_Z.
Qed.

Lemma runs_rep_in p x k cur s :
  p x = true -> runs p cur (rep x k ++ s) = runs p (rep x k ++ cur) s.
Proof.
  intros Hx. revert cur.
  induction k using N.peano_ind; intros cur; [reflexivity |].
  rewrite rep_succ. cbn [app runs]. rewrite Hx, IHk.
  replace (rep x k ++ x :: cur) with ((rep x k ++ [x]) ++ cur)
    by (rewrite <- app_assoc; reflexivity).
  rewrite rep_snoc. reflexivity.
Qed.

Lemma runs_rep_out p y m :
  p y = false -> runs p [] (rep y m) = [].
Proof.
  intros Hy. induction m using N.peano_ind; [reflexivity |].
  rewrite rep_succ. cbn [runs]. rewrite Hy. exact IHm.
Qed.

Lemma runs_rep_out_cur p y m c cur :
  p y = false -> runs p (c :: cur) (rep y m) = [rev (c :: cur)].
Proof.
  intros Hy. destruct m as [| m'] using N.peano_ind; [reflexivity |].
  rewrite rep_succ. cbn [runs]. rewrite Hy, runs_rep_out by exact Hy. reflexivity.
Qed.

Lemma str_eqb_rep_long x k w :
  (N.of_nat (List.length w) < k)%N -> str_eqb (rep x k) w = false.
Proof.
  revert k; induction w as [| d w IH]; intros k Hk.
  - destruct k as [| k'] using N.peano_ind; [cbn in Hk; lia |].
    rewrite rep_succ. reflexivity.
  - destruct k as [| k'] using N.peano_ind; [lia |].
    rewrite rep_succ. cbn [str_eqb]. rewrite IH; [apply andb_false_r |].
    cbn [List.length] in Hk. lia.
Qed.

Lemma str_eqb_comm s t : str_eqb s t = str_eqb t s.
Proof.
  destruct (str_eqb s t) eqn:E, (str_eqb t s) eqn:F; try reflexivity.
  - apply str_eqb_eq in E. subst. rewrite <- F. symmetry. apply str_eqb_eq. reflexivity.
  - apply str_eqb_eq in F. subst. rewrite <- E. apply str_eqb_eq. reflexivity.
Qed.

Lemma mem_rep_long x k vocab :
  forallb (fun w => N.ltb (N.of_nat (List.length w)) k) vocab = true ->
  mem (rep x k) vocab = false.
Proof.
  induction vocab as [| w vocab IH]; intros H; [reflexivity |].
  cbn [forallb] in H. apply andb_true_iff in H as [H1 H2]. apply N.ltb_lt in H1.
  unfold mem; cbn [existsb]. rewrite str_eqb_rep_long by exact H1. apply IH, H2.
Qed.

Lemma count_overlap_single t vocab :
  count_overlap [t] vocab = if mem t vocab then 1%nat else 0%nat.
Proof. unfold count_overlap; cbn [filter]. destruct (mem t vocab); reflexivity. Qed.

Lemma count_if_rep_none (p : Z -> bool) x y k m :
  p x = false -> p y = false -> count_if p (rep x k ++ rep y m) = 0.
Proof.
  intros Hx Hy. unfold count_if. rewrite filter_app, !filter_rep, Hx, Hy. reflexivity.
Qed.

Lemma tokenize_caps_spaces k m :
  tokenize ascii_db (rep 65 (N.succ k) ++ rep 32 m) = [rep 97 (N.succ k)].
Proof.
  unfold tokenize.
  change (u_lower ascii_db) with (map (fun c => if ascii_isupper c then c + 32 else c)).
  rewrite map_app, !map_rep.
  change ((fun c => if ascii_isupper c then c + 32 else c) 65) with 97.
  change ((fun c => if ascii_isupper c then c + 32 else c) 32) with 32.
  rewrite runs_rep_in by reflexivity. rewrite app_nil_r, rep_succ.
  rewrite runs_rep_out_cur by reflexivity.
  rewrite <- rep_succ, rev_rep. reflexivity.
Qed.

Lemma caps_spaces_text_eq :
  caps_spaces_text = rep 65 (N.succ 2251799813685249) ++ rep 32 5254199565265583.
Proof. reflexivity. Qed.

Lemma caps_spaces_features :
  extract_rule_features ascii_db caps_spaces_text default_signal = no_features.
Proof.
  rewrite caps_spaces_text_eq. unfold extract_rule_features.
  rewrite tokenize_caps_spaces.
  unfold negative_tone_pattern, norm_violation, has_second_person, rejection_pattern,
    blame_pattern, confrontational_pattern.
  rewrite !count_overlap_single.
  rewrite !(mem_rep_long 97 (N.succ 2251799813685249)) by (vm_compute; reflexivity).
  unfold mem; cbn [existsb]. rewrite !(str_eqb_comm (enc _)).
  rewrite !str_eqb_rep_long by (vm_compute; reflexivity).
  reflexivity.
Qed.

Lemma caps_spaces_length :
  Z.of_nat (List.length caps_spaces_text) = 7505999378950833.
Proof.
  unfold caps_spaces_text. rewrite length_app, !rep_length, Nat2Z.inj_add, !N_nat_Z.
  reflexivity.
Qed.

Lemma caps_spaces_caps :
  count_if (u_isupper ascii_db) caps_spaces_text = 2251799813685250.
Proof. unfold caps_spaces_text. rewrite count_if_rep_app by reflexivity. reflexivity. Qed.

Lemma caps_spaces_caps_test : caps_test ascii_db caps_spaces_text = false.
Proof.
  unfold caps_test. rewrite caps_spaces_caps.
  pose proof caps_spaces_length as Hl.
  rewrite caps_spaces_text_eq in *. rewrite Hl. rewrite rep_succ. cbn [app].
  vm_compute. reflexivity.
Qed.

Lemma caps_spaces_bang : count_bang caps_spaces_text = 0.
Proof. unfold count_bang, caps_spaces_text. apply count_if_rep_none; reflexivity. Qed.

(** Why the caps test needs a length bound: on a text of 7505999378950833
    characters (petabytes, far beyond what the program can hold), 2251799813685250
    of them capitals (more than 30%), and no '!', [len(text) * 0.3] rounds
    up to 2251799813685250.0, the caps test fails, and the score stays 0. *)
Lemma caps_over_30_percent_not_adjusted :
  let text := caps_spaces_text in
  Z.of_nat (List.length text) = 7505999378950833 /\
  count_if (u_isupper ascii_db) text = 2251799813685250 /\
  3 * Z.of_nat (List.length text) < 10 * count_if (u_isupper ascii_db) text /\
  count_bang text = 0 /\
  exists r, analyze_text ascii_db (fun _ => inr default_signal) text = inr r /\
    rule_int_score (extract_rule_features ascii_db text (model r)) = 0 /\
    conflict_score r = 0 /\ flags r = [no_negative_flag].
Proof.
  cbv zeta. rewrite caps_spaces_length, caps_spaces_caps, caps_spaces_bang.
  split; [reflexivity | split; [reflexivity | split; [lia | split; [reflexivity |]]]].
  eexists; split; [apply analyze_text_eq |]. cbn [model_used error_used].
  destruct (analysis_of_fields ascii_db caps_spaces_text default_signal None)
    as (Hs & _ & Hf & _ & _ & Hm & _).
  rewrite Hm, Hs, Hf, caps_spaces_features.
  unfold heuristic_score, heuristic_flags.
  rewrite caps_spaces_caps_test, caps_spaces_bang.
  split; [| split]; vm_compute; reflexivity.
Qed.

(** C7: for every non-empty text whose capitals exceed 30% of its length
    the caps adjustment fires (for every text the program can hold: the
    bound 2^49 characters, 512 TiB, is where the float [len(text) * 0.3]
    starts to matter); the caps adjustment adds 10 (capped at 100) and
    appends the caps flag, and then, independently, 3 or more '!' add 5
    (capped at 100) and append the exclamation flag; when both fire the
    score is min(100, rule score + 15). *)
Theorem caps_and_exclamation_adjustments db model_analyze text :
  exists r, analyze_text db model_analyze text = inr r /\
  let base := rule_int_score (extract_rule_features db text (model r)) in
  let n := Z.of_nat (List.length text) in
  let caps := count_if (u_isupper db) text in
  let caps_fires := caps_test db text in
  let bang_fires := 3 <=? count_bang text in
  (0 < n < 2 ^ 49 -> 3 * n < 10 * caps -> caps_fires = true) /\
  conflict_score r =
    (let s := if caps_fires then Z.min 100 (base + 10) else base in
     if bang_fires then Z.min 100 (s + 5) else s) /\
  flags r = match map rule_flag (triggered_rules r) ++
                  (if caps_fires then [caps_flag] else []) ++
                  (if bang_fires then [exclamation_flag] else []) with
            | [] => [no_negative_flag] | l => l end /\
  (caps_fires = true -> bang_fires = true -> conflict_score r = Z.min 100 (base + 15)).
Proof.
  eexists; split; [apply analyze_text_eq |]. cbv zeta.
  destruct (analysis_of_fields db text (model_used (model_analyze text))
              (error_used (model_analyze text))) as (Hs & _ & Hf & _ & Ht & Hm & _).
  rewrite Hm, Hs, Hf, Ht. unfold heuristic_score, heuristic_flags.
  split; [| split; [reflexivity | split; [reflexivity |]]].
  - intros Hn Hc. unfold caps_test. destruct text as [| c text'];
      [cbn in Hn; lia |].
    apply caps_threshold_small; assumption.
  - intros -> ->. lia.
Qed.

(** * Witnesses *)

Lemma caps_and_exclamation_adjustments_witness :
  exists r, analyze_text ascii_db neutral_model (enc "THIS IS YOUR FAULT!!!") = inr r /\
    caps_test ascii_db (enc "THIS IS YOUR FAULT!!!") = true /\
    conflict_score r =
      Z.min 100 (rule_int_score (extract_rule_features ascii_db
                   (enc "THIS IS YOUR FAULT!!!") (model r)) + 15).
Proof.
  destruct (caps_and_exclamation_adjustments ascii_db neutral_model
              (enc "THIS IS YOUR FAULT!!!")) as (r & Hr & H).
  cbv zeta in H. destruct H as (Hcaps & _ & _ & H15).
  assert (Hc : caps_test ascii_db (enc "THIS IS YOUR FAULT!!!") = true)
    by (apply Hcaps; vm_compute; [split; reflexivity | reflexivity]).
  exists r. split; [exact Hr | split; [exact Hc |]].
  apply H15; [exact Hc | vm_compute; reflexivity].
Defined.

Lemma flags_assembly_witness :
  exists r, analyze_text ascii_db neutral_model (enc "thanks for the help") = inr r /\
    flags r = [no_negative_flag].
Proof.
  destruct (flags_assembly ascii_db neutral_model (enc "thanks for the help"))
    as (r & Hr & _ & Hno & _).
  exists r. split; [exact Hr |].
  rewrite analyze_text_eq in Hr.
  remember (analysis_of _ _ _ _) as a eqn:Ea in Hr.
  injection Hr as <-. subst a.
  apply Hno; vm_compute; reflexivity.
Defined.

Lemma risk_classifier_bins_witness :
  classify 0%Q = ("LOW", "No action needed")%string /\
  classify (lit 3 10) = ("MEDIUM", "Suggest cooling-off or rephrasing")%string /\
  classify (lit 6 10) = ("HIGH", "Intervene or alert moderator")%string /\
  classify (calculate_conflict_score blame_confrontational) =
    ("HIGH", "Intervene or alert moderator")%string /\
  fst (classify (calculate_conflict_score
    (features_set no_features "negative_tone" true))) = "MEDIUM"%string /\
  fst (classify (calculate_conflict_score
    (features_set no_features "norm_violation" true))) = "HIGH"%string /\
  calculate_conflict_score (features_set no_features "negative_tone" true) = lit 3 10 /\
  calculate_conflict_score (features_set no_features "norm_violation" true) = lit 6 10.
Proof.
  destruct risk_classifier_bins as (Hl & Hm & Hh & _ & M3 & H6 & E3 & E6).
  assert (A3 : calculate_conflict_score (features_set no_features "negative_tone" true)
               = lit 3 10) by (apply E3; vm_compute; reflexivity).
  assert (A6 : calculate_conflict_score (features_set no_features "norm_violation" true)
               = lit 6 10) by (apply E6; vm_compute; reflexivity).
  split; [apply Hl; vm_compute; reflexivity |].
  split; [apply Hm; [apply Qle_refl | vm_compute; reflexivity] |].
  split; [apply Hh, Qle_refl |].
  split; [apply Hh; vm_compute; intro Hc; discriminate Hc |].
  split; [apply M3, A3 | split; [apply H6, A6 | split; assumption]].
Defined.
Lemma no_apostrophe_in_tokens_witness :
  (forall t, In t (tokenize ascii_db (enc "it's what you're saying")) -> ~ In 39 t) /\
  ~ In (enc "you're") (tokenize ascii_db (enc "it's what you're saying")).
Proof.
  destruct (no_apostrophe_in_tokens ascii_db eq_refl (enc "it's what you're saying"))
    as (H1 & H2 & _).
  split; [exact H1 |].
  apply H2. right; right; left; reflexivity.
Defined.

Lemma negative_tone_iff_witness :
  fs_negative_tone (extract_rule_features ascii_db (enc "i dont really like it")
                      default_signal) = true.
Proof.
  apply (proj2 (negative_tone_iff ascii_db (enc "i dont really like it") default_signal)).
  right. split; vm_compute; [right; left | right; right; right; left]; reflexivity.
Defined.

(* ------------------------------------------------------------------ *)
(** * Witnesses of the extensions *)

Lemma heuristic_sentiment_by_count_witness :
  count_in neg_words (u_lower ascii_db (enc "I hate this")) = 1 /\
  sentiment (heuristic_analyze ascii_db (enc "I hate this")) = "negative"%string /\
  sentiment_score (heuristic_analyze ascii_db (enc "I hate this")) = lit 65 100.
Proof.
  pose proof (heuristic_sentiment_by_count ascii_db (enc "I hate this")) as H.
  cbv zeta in H. destruct H as (_ & H1 & _).
  assert (Hn : count_in neg_words (u_lower ascii_db (enc "I hate this")) = 1)
    by (vm_compute; reflexivity).
  destruct (H1 Hn) as (Hs & Hss & _). split; [exact Hn | split; assumption].
Defined.

Lemma analyze_message_blank_witness :
  analyze_message ascii_db failing_env (enc "   ") = zero_signal.
Proof. apply analyze_message_blank. vm_compute. reflexivity. Defined.

Lemma analyze_message_fallback_witness :
  analyze_message ascii_db failing_env (enc "i hate you") =
  heuristic_analyze ascii_db (enc "i hate you").
Proof.
  apply analyze_message_fallback; [vm_compute; reflexivity |].
  right. exists "list index out of range"%string. reflexivity.
Defined.

Lemma analyze_message_pipelines_witness :
  sentiment (analyze_message ascii_db pipelines_env (enc "fine")) = "negative"%string /\
  toxicity (analyze_message ascii_db pipelines_env (enc "fine")) = 0%Q.
Proof.
  pose proof (analyze_message_pipelines ascii_db pipelines_env (enc "fine")
    {| pred_label := Some "LABEL_0"%string; pred_score := Some (lit 91 100) |} []
    {| pred_label := Some "non-toxic"%string; pred_score := Some (lit 7 10) |} []
    ltac:(vm_compute; reflexivity) eq_refl eq_refl eq_refl) as H.
  cbv zeta in H. destruct H as [H1 H2].
  split; [rewrite H1; vm_compute; reflexivity | apply H2; vm_compute; discriminate].
Defined.

Lemma rule_score_monotone_in_model_witness :
  (calculate_conflict_score (extract_rule_features ascii_db (enc "you never listen") default_signal)
   <= calculate_conflict_score (extract_rule_features ascii_db (enc "you never listen")
        {| sentiment := "negative"; sentiment_score := lit 9 10; toxicity := lit 6 10;
           subjectivity := None |}))%Q.
Proof.
  apply rule_score_monotone_in_model;
    [apply Qle_bool_iff; vm_compute; reflexivity | apply Qle_bool_iff; vm_compute; reflexivity |].
  intros _. reflexivity.
Defined.

Lemma appending_text_keeps_rules_witness :
  (calculate_conflict_score (extract_rule_features ascii_db (enc "you never") default_signal)
   <= calculate_conflict_score
        (extract_rule_features ascii_db (enc "you never" ++ 32%Z :: enc "listen") default_signal))%Q.
Proof.
  pose proof (appending_text_keeps_rules ascii_db eq_refl ascii_lower_app
                (enc "you never") (enc "listen") default_signal) as H.
  cbv zeta in H. destruct H as (_ & _ & H & _). exact H.
Defined.

Lemma apply_rules_case_insensitive_witness :
  apply_rules ascii_db (u_lower ascii_db (enc "STOP blaming ME")) default_signal =
  apply_rules ascii_db (enc "STOP blaming ME") default_signal.
Proof. apply (apply_rules_case_insensitive ascii_db ascii_lower_idem). Defined.

Lemma low_risk_rule_sets_witness :
  ro_risk_level (apply_rules ascii_db (enc "thanks for the help") default_signal) = "LOW"%string.
Proof.
  apply (proj2 (low_risk_rule_sets ascii_db (enc "thanks for the help") default_signal)).
  vm_compute. left. reflexivity.
Defined.

Lemma profanity_is_high_risk_witness :
  ro_risk_level (apply_rules ascii_db (enc "well damn") default_signal) = "HIGH"%string.
Proof.
  apply profanity_is_high_risk. exists (enc "damn").
  split; apply mem_In; vm_compute; reflexivity.
Defined.

Lemma analyze_blank_text_witness :
  app_analyze_text ascii_db failing_env (enc "   ") = inr blank_result.
Proof.
  apply (analyze_blank_text ascii_db failing_env ascii_space_not_upper ascii_lower_blank eq_refl).
  vm_compute. reflexivity.
Defined.

Lemma ui_run_never_raises_witness :
  exists s', run (analyze_text ascii_db neutral_model) init_session send_bob = inr s'.
Proof.
  apply (ui_run_never_raises ascii_db neutral_model init_session send_bob (reachable_init _)).
  vm_compute. right. right. left. reflexivity.
Defined.

Lemma ui_conversations_invariant_witness :
  map fst (messages init_session) = ["Alice"; "Bob"; "Manager"]%string.
Proof.
  apply (proj1 (ui_conversations_invariant ascii_db neutral_model init_session (reachable_init _))).
Defined.

Lemma ui_send_appends_witness :
  exists s', run (analyze_text ascii_db neutral_model) init_session send_bob = inr s' /\
    current_user s' = Some "Bob"%string.
Proof.
  destruct (run (analyze_text ascii_db neutral_model) init_session send_bob) as [e | s'] eqn:E.
  - vm_compute in E. discriminate E.
  - exists s'. split; [reflexivity |].
    destruct (ui_send_appends ascii_db neutral_model init_session send_bob s'
                ltac:(vm_compute; discriminate) eq_refl ltac:(vm_compute; discriminate) E)
      as (r & conv & _ & _ & _ & _ & _ & Hc & _).
    exact Hc.
Defined.

Lemma ui_without_send_keeps_state_witness :
  exists s', run (analyze_text ascii_db neutral_model) init_session select_alice = inr s' /\
    messages s' = messages init_session.
Proof.
  destruct (run (analyze_text ascii_db neutral_model) init_session select_alice)
    as [e | s'] eqn:E.
  - vm_compute in E. discriminate E.
  - exists s'. split; [reflexivity |].
    destruct (ui_without_send_keeps_state (analyze_text ascii_db neutral_model) init_session
                select_alice s' ltac:(right; left; reflexivity) E) as (Hm & _).
    exact Hm.
Defined.

Lemma ui_first_analysis_is_last_message_witness :
  exists s' pre last r,
    run (analyze_text ascii_db neutral_model) init_session select_alice = inr s' /\
    dict_get (messages init_session) "Alice"%string = inr (pre ++ [last]) /\
    analyze_text ascii_db neutral_model (m_text last) = inr r /\ last_analysis s' = Some r.
Proof.
  destruct (run (analyze_text ascii_db neutral_model) init_session select_alice)
    as [e | s'] eqn:E.
  - vm_compute in E. discriminate E.
  - destruct (ui_first_analysis_is_last_message ascii_db neutral_model init_session select_alice s'
                eq_refl ltac:(vm_compute; discriminate) ltac:(left; reflexivity) E)
      as (pre & last & r & Hg & Ha & Hl & _).
    exists s', pre, last, r. split; [reflexivity | split; [exact Hg | split; assumption]].
Defined.
